(** * The build-and-release script of the pouchdb TiddlyWiki plugin

    A shallow embedding of [gulpfile.babel.js]: the statements the module
    runs when it is loaded (read plugin.info, sanity check), the task
    'bump version' and the task 'bundle the plugin', together with models
    of the runtime primitives the script calls: [String.prototype.trim],
    [parseInt], the strict parser of the [semver] package (5.x),
    [JSON.stringify] with a two-space gap and the POSIX [path.resolve].

    Conventions.  A JavaScript string is a Rocq [string] holding its UTF-8
    bytes.  A number is tracked exactly as long as it is an integer of
    magnitude at most 2^53, the range on which doubles are exact.  What
    lies outside the script (files, clock, gulp streams, the wiki) is
    reached through calls that a world answers; the properties hold for
    every world unless they name the disk world. *)

From Stdlib Require Import ZArith Lia Ascii String List Bool.
From stdpp Require Import base strings gmap pretty.
Import ListNotations.

Local Open Scope Z_scope.

(** ** Outcomes *)

(** The exceptions the script and its collaborators raise.
    [PropertyOfNull key] is the TypeError the engine throws when property
    [key] of [null] is read; its message differs from one engine to the
    next and is not part of the value. *)
Inductive exn : Type :=
| TypeError (msg : string)
| PropertyOfNull (key : string)
| Error (msg : string)
| SyntaxError (msg : string)
| SystemError (code : string).

(** The outcome of evaluating a JavaScript expression: a value, a thrown
    exception, or [Untracked] when the evaluation goes through a double
    beyond 2^53, whose digits this development does not follow. *)
Inductive result (A : Type) : Type :=
| Ok (a : A)
| Throw (e : exn)
| Untracked.
Arguments Ok {A} a.
Arguments Throw {A} e.
Arguments Untracked {A}.

Definition result_bind {A B} (r : result A) (f : A -> result B) : result B :=
  match r with
  | Ok a => f a
  | Throw e => Throw e
  | Untracked => Untracked
  end.

Global Instance result_ret : MRet result := @Ok.
Global Instance result_mbind : MBind result := fun A B f r => result_bind r f.

(** ** JavaScript primitives *)
Module JS.

Definition code (c : ascii) : Z := Z.of_N (N_of_ascii c).

Definition is_digit (c : ascii) : bool := (48 <=? code c) && (code c <=? 57).
Definition is_lower (c : ascii) : bool := (97 <=? code c) && (code c <=? 122).
Definition is_upper (c : ascii) : bool := (65 <=? code c) && (code c <=? 90).

Fixpoint forall_chars (p : ascii -> bool) (s : string) : bool :=
  match s with
  | EmptyString => true
  | String c r => p c && forall_chars p r
  end.

Fixpoint is_prefix (p s : string) : bool :=
  match p, s with
  | EmptyString, _ => true
  | String a p', String b s' => Ascii.eqb a b && is_prefix p' s'
  | String _ _, EmptyString => false
  end.

Fixpoint take (n : nat) (s : string) : string :=
  match n, s with
  | O, _ => EmptyString
  | S n', String c r => String c (take n' r)
  | S _, EmptyString => EmptyString
  end.

(** The UTF-8 encodings of the code points that [trim] and [parseInt]
    treat as white space or line terminators: TAB, LF, VT, FF, CR, SP,
    U+00A0, U+1680, U+2000..U+200A, U+2028, U+2029, U+202F, U+205F,
    U+3000 and U+FEFF. *)
Definition byte (n : N) : ascii := ascii_of_N n.
Definition bytes (l : list N) : string := string_of_list_ascii (map byte l).

Definition white_space : list string :=
  map bytes
    ([ [9]; [10]; [11]; [12]; [13]; [32]; [194; 160]; [225; 154; 128] ]
     ++ map (fun k => [226; 128; k])
            [128; 129; 130; 131; 132; 133; 134; 135; 136; 137; 138]
     ++ [ [226; 128; 168]; [226; 128; 169]; [226; 128; 175]; [226; 129; 159];
          [227; 128; 128]; [239; 187; 191] ])%N.

(** The white space sequence [s] starts with, if any. *)
Definition leading_space (s : string) : option string :=
  List.find (fun w => is_prefix w s) white_space.

(** [s] with its leading white space removed.  Every white space sequence
    is at most three bytes long, so the recursion inspects the next three
    bytes and continues on a suffix. *)
Fixpoint trim_start (s : string) : string :=
  match s with
  | EmptyString => EmptyString
  | String c r =>
    match leading_space s with
    | None => s
    | Some w =>
      match String.length w, r with
      | 1%nat, _ => trim_start r
      | 2%nat, String _ r2 => trim_start r2
      | 3%nat, String _ (String _ r3) => trim_start r3
      | _, _ => s
      end
    end
  end.

(** [s] is made of white space only. *)
Definition is_blank (s : string) : bool :=
  match trim_start s with EmptyString => true | _ => false end.

Fixpoint trim_end (s : string) : string :=
  match s with
  | EmptyString => EmptyString
  | String c r => if is_blank s then EmptyString else String c (trim_end r)
  end.

(** [String.prototype.trim]. *)
Definition trim (s : string) : string := trim_end (trim_start s).

(** [String.prototype.split] with a one-character separator. *)
Fixpoint split (sep : ascii) (s : string) : list string :=
  match s with
  | EmptyString => [EmptyString]
  | String c r =>
    if Ascii.eqb c sep then EmptyString :: split sep r
    else match split sep r with
         | h :: t => String c h :: t
         | [] => [String c EmptyString]
         end
  end.

(** Numbers.  [Int z] is the double of the integer [z], built only for
    magnitudes up to 2^53; [Imprecise] is a finite double beyond that
    range.  The two zeros are identified: they behave alike under [+] and
    under conversion to a string. *)
Inductive number : Type :=
| NaN
| Int (z : Z)
| Imprecise.

Definition MAX_SAFE_INTEGER : Z := 9007199254740991.

(** The double nearest to the integer [z], when [z] is a safe integer. *)
Definition of_integer (z : Z) : number :=
  if (- MAX_SAFE_INTEGER <=? z) && (z <=? MAX_SAFE_INTEGER) then Int z else Imprecise.

(** [n + 1].  A safe integer plus one is at most 2^53, still exact. *)
Definition succ (n : number) : number :=
  match n with
  | NaN => NaN
  | Int z => Int (z + 1)
  | Imprecise => Imprecise
  end.

(** [ToString] on numbers.  A safe integer prints in plain decimal.
    Beyond 2^53 the engine prints the digits of the rounded double, in
    exponent notation from 10^21 on, and [parseInt] itself may approximate
    a numeral of more than twenty digits: these texts are not followed,
    and a property that needs the text states that the number is [NaN] or
    an [Int]. *)
Definition number_to_string (n : number) : result string :=
  match n with
  | NaN => Ok "NaN"
  | Int z => Ok (pretty z)
  | Imprecise => Untracked
  end.

(** The value of [c] as a digit, for radices up to 36. *)
Definition digit_value (c : ascii) : option Z :=
  if is_digit c then Some (code c - 48)
  else if is_lower c then Some (code c - 87)
  else if is_upper c then Some (code c - 55)
  else None.

(** The longest prefix of [s] made of digits of radix [R]. *)
Fixpoint leading_digits (R : Z) (s : string) : list Z :=
  match s with
  | EmptyString => []
  | String c r =>
    match digit_value c with
    | Some d => if d <? R then d :: leading_digits R r else []
    | None => []
    end
  end.

Definition digits_value (R : Z) (ds : list Z) : Z :=
  fold_left (fun acc d => acc * R + d) ds 0.

(** [parseInt(s)], no radix given: leading white space is skipped, a sign
    is read, a [0x] or [0X] prefix selects radix 16, and the longest run
    of digits is converted; no digit at all gives [NaN]. *)
Definition parseInt (s : string) : number :=
  let s0 := trim_start s in
  let '(sign, s1) :=
    match s0 with
    | String "-" r => (-1, r)
    | String "+" r => (1, r)
    | _ => (1, s0)
    end in
  let '(R, s2) :=
    match s1 with
    | String "0" (String "x" r) => (16, r)
    | String "0" (String "X" r) => (16, r)
    | _ => (10, s1)
    end in
  match leading_digits R s2 with
  | [] => NaN
  | ds => of_integer (sign * digits_value R ds)
  end.

End JS.

(** ** JSON values *)
Module Json.

(** The values [JSON.parse] yields.  A number is kept as the text
    [ToString] gives for it; the fields of an object are kept in
    enumeration order. *)
#[warnings="-register-all"] Inductive json : Type :=
| JNull
| JBool (b : bool)
| JNum (repr : string)
| JStr (s : string)
| JArr (items : list json)
| JObj (fields : list (string * json)).

(** A JavaScript value as the script meets them: [undefined] or a JSON
    value. *)
Definition value : Type := option json.
Definition undefined : value := None.

(** [o[k]] on the fields of an object. *)
Fixpoint get (k : string) (fields : list (string * json)) : value :=
  match fields with
  | [] => undefined
  | (k', v) :: rest => if String.eqb k' k then Some v else get k rest
  end.

(** [o[k] = v]: an existing field keeps its place, a new one goes last. *)
Fixpoint set (k : string) (v : json) (fields : list (string * json))
  : list (string * json) :=
  match fields with
  | [] => [(k, v)]
  | (k', v') :: rest =>
    if String.eqb k' k then (k, v) :: rest else (k', v') :: set k v rest
  end.

(** [j.k], a property read: it throws on [null]; on the other values
    that are not objects the properties the script asks for
    (title, version) do not exist. *)
Definition property (j : json) (k : string) : result value :=
  match j with
  | JNull => Throw (PropertyOfNull k)
  | JObj fields => Ok (get k fields)
  | _ => Ok undefined
  end.

Fixpoint join (sep : string) (l : list string) : string :=
  match l with
  | [] => ""
  | [x] => x
  | x :: rest => x +:+ sep +:+ join sep rest
  end.

(** [ToString]. *)
Fixpoint to_string (j : json) : string :=
  match j with
  | JNull => "null"
  | JBool true => "true"
  | JBool false => "false"
  | JNum repr => repr
  | JStr s => s
  | JArr items =>
    join "," (map (fun x => match x with JNull => "" | _ => to_string x end) items)
  | JObj _ => "[object Object]"
  end.

Definition value_to_string (v : value) : string :=
  match v with
  | None => "undefined"
  | Some j => to_string j
  end.

Definition dquote : ascii := "034"%char.
Definition newline : string := String "010"%char "".

Definition hex_digit (n : N) : ascii :=
  if (n <? 10)%N then ascii_of_N (48 + n) else ascii_of_N (87 + n).

(** The escape of one byte inside a JSON string literal. *)
Definition escape (c : ascii) : string :=
  let n := N_of_ascii c in
  if Ascii.eqb c dquote then String "\" (String dquote "")
  else if Ascii.eqb c "\" then "\\"
  else if (n =? 8)%N then "\b"
  else if (n =? 9)%N then "\t"
  else if (n =? 10)%N then "\n"
  else if (n =? 12)%N then "\f"
  else if (n =? 13)%N then "\r"
  else if (n <? 32)%N
       then "\u00" +:+ String (hex_digit (n / 16)) (String (hex_digit (n mod 16)) "")
  else String c "".

Fixpoint escape_all (s : string) : string :=
  match s with
  | EmptyString => ""
  | String c r => escape c +:+ escape_all r
  end.

(** [QuoteJSONString]. *)
Definition quote (s : string) : string :=
  String dquote (escape_all s +:+ String dquote "").

Definition gap : string := "  ".

Definition number_text (repr : string) : string :=
  if String.eqb repr "Infinity" || String.eqb repr "-Infinity" || String.eqb repr "NaN"
  then "null" else repr.

(** [SerializeJSONProperty] with the two-space gap; [indent] is the
    indentation of the enclosing line. *)
Fixpoint serialize (indent : string) (j : json) : string :=
  match j with
  | JNull => "null"
  | JBool true => "true"
  | JBool false => "false"
  | JNum repr => number_text repr
  | JStr s => quote s
  | JArr [] => "[]"
  | JArr items =>
    let inner := indent +:+ gap in
    "[" +:+ newline +:+ inner
      +:+ join ("," +:+ newline +:+ inner) (map (serialize inner) items)
      +:+ newline +:+ indent +:+ "]"
  | JObj [] => "{}"
  | JObj fields =>
    let inner := indent +:+ gap in
    "{" +:+ newline +:+ inner
      +:+ join ("," +:+ newline +:+ inner)
            (map (fun kv => quote (fst kv) +:+ ": " +:+ serialize inner (snd kv)) fields)
      +:+ newline +:+ indent +:+ "}"
  end.

(** [JSON.stringify(j, null, 2)]. *)
Definition stringify (j : json) : string := serialize "" j.

End Json.

(** ** The semver package: strict parsing of a version *)
Module SemVer.
Import JS.

Inductive ident : Type :=
| Numeric (n : Z)
| Alnum (s : string).

Record t : Type := mk {
  raw : string;
  major : Z;
  minor : Z;
  patch : Z;
  prerelease : list ident;
  build : list string
}.

Definition MAX_LENGTH : Z := 256.

(** The number of UTF-16 code units of a string given by its UTF-8
    bytes: one per code point, two for those encoded on four bytes. *)
Fixpoint utf16_length (s : string) : Z :=
  match s with
  | EmptyString => 0
  | String c r =>
    (if (code c <? 128) || (192 <=? code c) then 1 else 0)
    + (if 240 <=? code c then 1 else 0) + utf16_length r
  end.

(** [s] cut at the first [sep]: what precedes it, and what follows it
    when there is one. *)
Fixpoint cut (sep : ascii) (s : string) : string * option string :=
  match s with
  | EmptyString => (EmptyString, None)
  | String c r =>
    if Ascii.eqb c sep then (EmptyString, Some r)
    else let '(a, b) := cut sep r in (String c a, b)
  end.

Definition nonempty (s : string) : bool :=
  match s with EmptyString => false | _ => true end.

(** [0|[1-9]\d*] *)
Definition numeric_identifier (s : string) : bool :=
  match s with
  | EmptyString => false
  | String "0" EmptyString => true
  | String c r => is_digit c && negb (Ascii.eqb c "0") && forall_chars is_digit r
  end.

(** [[0-9A-Za-z-]] *)
Definition is_ident_char (c : ascii) : bool :=
  is_digit c || is_lower c || is_upper c || Ascii.eqb c "-".

(** A numeric identifier, or [\d*[a-zA-Z-][a-zA-Z0-9-]*]: letters, digits
    and hyphens with at least one character that is not a digit. *)
Definition prerelease_identifier (s : string) : bool :=
  nonempty s && forall_chars is_ident_char s
  && (if forall_chars is_digit s then numeric_identifier s else true).

(** [[0-9A-Za-z-]+] *)
Definition build_identifier (s : string) : bool :=
  nonempty s && forall_chars is_ident_char s.

Definition optional (p : string -> bool) (o : option string) : bool :=
  match o with None => true | Some s => p s end.

(** The groups of the strict pattern
    [^v?(MAJOR)\.(MINOR)\.(PATCH)(?:-(PRERELEASE))?(?:\+(BUILD))?$]
    on a match: the three numeric identifiers, the prerelease and the
    build when present. *)
Definition match_full (s : string)
  : option (string * string * string * option string * option string) :=
  let s := match s with String "v" r => r | _ => s end in
  let '(main_pre, bld) := cut "+" s in
  let '(main, pre) := cut "-" main_pre in
  match split "." main with
  | [ma; mi; pa] =>
    if numeric_identifier ma && numeric_identifier mi && numeric_identifier pa
       && optional (fun p => forallb prerelease_identifier (split "." p)) pre
       && optional (fun b => forallb build_identifier (split "." b)) bld
    then Some (ma, mi, pa, pre, bld)
    else None
  | _ => None
  end.

(** The prerelease the strict pattern finds in a version text: what
    follows the first hyphen, up to the build marker. *)
Definition label (s : string) : option string :=
  snd (cut "-" (fst (cut "+" s))).

(** The characters of a main version [MAJOR.MINOR.PATCH]. *)
Definition is_core_char (c : ascii) : bool := is_digit c || Ascii.eqb c ".".

(** [s] holds no build marker. *)
Definition no_plus (s : string) : bool :=
  forall_chars (fun c => negb (Ascii.eqb c "+")) s.

(** The value of a run of decimal digits. *)
Definition decimal (s : string) : Z := digits_value 10 (leading_digits 10 s).

(** A prerelease identifier made of digits becomes a number when it is
    below [MAX_SAFE_INTEGER]. *)
Definition numberify (id : string) : ident :=
  if forall_chars is_digit id && nonempty id && (decimal id <? MAX_SAFE_INTEGER)
  then Numeric (decimal id) else Alnum id.

(** [new SemVer(version)], strict mode. *)
Definition new (version : Json.value) : result t :=
  match version with
  | Some (Json.JStr version) =>
    if MAX_LENGTH <? utf16_length version
    then Throw (TypeError "version is longer than 256 characters")
    else
      match match_full (trim version) with
      | None => Throw (TypeError ("Invalid Version: " +:+ version))
      | Some (ma, mi, pa, pre, bld) =>
        if MAX_SAFE_INTEGER <? decimal ma then Throw (TypeError "Invalid major version")
        else if MAX_SAFE_INTEGER <? decimal mi then Throw (TypeError "Invalid minor version")
        else if MAX_SAFE_INTEGER <? decimal pa then Throw (TypeError "Invalid patch version")
        else Ok {| raw := version;
                   major := decimal ma; minor := decimal mi; patch := decimal pa;
                   prerelease := match pre with
                                 | None => []
                                 | Some p => map numberify (split "." p)
                                 end;
                   build := match bld with
                            | None => []
                            | Some b => split "." b
                            end |}
      end
  | other => Throw (TypeError ("Invalid Version: " +:+ Json.value_to_string other))
  end.

End SemVer.

(** ** The path module (POSIX flavour) *)
Module Path.

Definition is_absolute (p : string) : bool :=
  match p with String "/" _ => true | _ => false end.

(** The arguments of [resolve] are taken from right to left until an
    absolute one is met; the working directory comes last. *)
Fixpoint gather (cwd : string) (rev_paths : list string) (acc : string) : string :=
  match rev_paths with
  | [] => cwd +:+ "/" +:+ acc
  | EmptyString :: more => gather cwd more acc
  | p :: more =>
    if is_absolute p then p +:+ "/" +:+ acc else gather cwd more (p +:+ "/" +:+ acc)
  end.

(** Empty and [.] segments vanish, [..] removes the segment before it and
    stops at the root. *)
Definition push (stack : list string) (seg : string) : list string :=
  if String.eqb seg "" || String.eqb seg "." then stack
  else if String.eqb seg ".." then removelast stack
  else (stack ++ [seg])%list.

Definition normalize (segments : list string) : list string :=
  fold_left push segments [].

(** [path.resolve(...paths)] in a process whose working directory is the
    absolute path [cwd]. *)
Definition resolve (cwd : string) (paths : list string) : string :=
  "/" +:+ Json.join "/" (normalize (JS.split "/" (gather cwd (rev paths) ""))).

(** [path.basename(p)]: the last segment of [p], trailing slashes aside. *)
Definition basename (p : string) : string :=
  List.last (List.filter SemVer.nonempty (JS.split "/" p)) "".

(** [s] holds no slash. *)
Definition no_slash (s : string) : bool :=
  JS.forall_chars (fun c => negb (Ascii.eqb c "/")) s.

(** [s] can stand as one segment of a path: it is not empty, not [.] nor
    [..], and holds no slash. *)
Definition is_segment (s : string) : bool :=
  no_slash s && negb (String.eqb s "" || String.eqb s "." || String.eqb s "..").

(** What [normalize] keeps: segments without slash that are not empty. *)
Definition plain (x : string) : Prop := no_slash x = true /\ SemVer.nonempty x = true.

End Path.

(** ** Programs that call the outside world *)

(** The calls the script makes to the file system, the clock, gulp plugins
    and the host wiki, indexed by the type of what they return.
    [GulpBump src key version dest] is the stream
    [gulp.src(src).pipe(bump({ key, version })).pipe(gulp.dest(dest))];
    [GulpStream] stands for the stream of a file-transform task (copy,
    compile, validate, docs), whose globs and plugins are not detailed. *)
Inductive call : Type -> Type :=
| ReadFileSync (path encoding : string) : call string
| JSONparse (text : string) : call Json.json
| UTCString : call string
| WriteFileSync (path data : string) : call unit
| Exists (path : string) : call bool
| MkdirSync (path : string) : call unit
| Del (patterns : list string) (force : bool) : call unit
| GulpBump (src key version dest : string) : call unit
| GulpStream (task : string) (production : bool) : call unit
| TiddlyWikiBoot (argv : list string) : call unit
| LoadPluginFolder (path : string) : call Json.json
| Beep : call unit.

(** A program is a tree of calls: it returns, throws, loses track of a
    number, makes a call and continues with the answer, or starts a piece
    of work it does not wait for and continues at once. *)
Inductive prog (A : Type) : Type :=
| Ret (a : A)
| Raise (e : exn)
| Lost
| Perform {X : Type} (c : call X) (k : X -> prog A)
| Start {X : Type} (c : call X) (k : prog A).
Arguments Ret {A} a.
Arguments Raise {A} e.
Arguments Lost {A}.
Arguments Perform {A X} c k.
Arguments Start {A X} c k.

Fixpoint bind {A B : Type} (p : prog A) (f : A -> prog B) : prog B :=
  match p with
  | Ret a => f a
  | Raise e => Raise e
  | Lost => Lost
  | Perform c k => Perform c (fun x => bind (k x) f)
  | Start c k => Start c (bind k f)
  end.

Definition perform {X : Type} (c : call X) : prog X := Perform c Ret.

(** A stream that is set up and left to run: the program goes on whatever
    becomes of it. *)
Definition start {X : Type} (c : call X) : prog unit := Start c (Ret tt).

Definition lift {A : Type} (r : result A) : prog A :=
  match r with
  | Ok a => Ret a
  | Throw e => Raise e
  | Untracked => Lost
  end.

Global Instance prog_ret : MRet prog := @Ret.
Global Instance prog_bind : MBind prog := fun A B f p => bind p f.

(** The outside world: a state and an answer to every call.  A call that
    fails throws and ends the program, which has no handler.  The answer
    to work that was only started is how that work ends; the program does
    not see it. *)
Record world (S : Type) : Type := {
  answer : forall X : Type, call X -> S -> result X * S
}.
Arguments answer {S} w {X} c s.

Inductive event : Type :=
| Event {X : Type} (c : call X) (r : result X).

(** Running a program in a world: the outcome, the final state of the world
    and the calls made, in order, with their answers. *)
Fixpoint run {S A : Type} (W : world S) (p : prog A) (s : S)
  : result A * S * list event :=
  match p with
  | Ret a => (Ok a, s, [])
  | Raise e => (Throw e, s, [])
  | Lost => (Untracked, s, [])
  | Perform c k =>
    let '(r, s1) := answer W c s in
    match r with
    | Ok x => let '(r', s2, tr) := run W (k x) s1 in (r', s2, Event c r :: tr)
    | Throw e => (Throw e, s1, [Event c r])
    | Untracked => (Untracked, s1, [Event c r])
    end
  | Start c k =>
    let '(r, s1) := answer W c s in
    let '(r', s2, tr) := run W k s1 in (r', s2, Event c r :: tr)
  end.

(** The files an event list writes, with their contents. *)
Definition written (e : event) : option (string * string) :=
  match e with
  | Event c _ =>
    match c with
    | WriteFileSync path data => Some (path, data)
    | _ => None
    end
  end.

Definition writes (tr : list event) : list (string * string) :=
  omap written tr.

(** The files an event list reads. *)
Definition was_read (e : event) : option string :=
  match e with
  | Event c _ =>
    match c with
    | ReadFileSync path _ => Some path
    | _ => None
    end
  end.

Definition reads (tr : list event) : list string := omap was_read tr.

(** The versions an event list hands to gulp-bump: the file, the key and
    the version to set. *)
Definition was_bumped (e : event) : option (string * string * string) :=
  match e with
  | Event c _ =>
    match c with
    | GulpBump src key version _ => Some (src, key, version)
    | _ => None
    end
  end.

Definition bumps (tr : list event) : list (string * string * string) :=
  omap was_bumped tr.


(** ** The gulpfile *)
Module Gulpfile.
Import Json.

(** Script config: the author and plugin name, and whether the build
    number is created and incremented automatically. *)
Record config : Type := {
  authorName : string;
  pluginName : string;
  isIncrBuild : bool
}.

(** The configuration the script ships with. *)
Definition shipped : config :=
  {| authorName := "danielo515"; pluginName := "pouchdb"; isIncrBuild := true |}.

(** What the invocation provides: the working directory and the options
    yargs read from the command line.  [--mode] followed by a label gives
    [Some] of the label; a bare or numeric [--mode] is not modelled. *)
Record invocation : Type := {
  cwd : string;
  production : bool;
  mode : option string
}.

(** The build paths where the script puts its results. *)
Record paths : Type := {
  bundle : string;
  dist : string;
  docs : string;
  maps : string
}.

(** The object held by [pluginInfo], by its fields. *)
Definition manifest : Type := list (string * json).

Section Script.
Context (cfg : config) (argv : invocation).

(** *** Preprocessing *)

Definition pluginSrc : string := "./src/plugins/".
Definition pluginNamespace : string := authorName cfg +:+ "/" +:+ pluginName cfg.
Definition pluginTiddler : string := "$:/plugins/" +:+ pluginNamespace.
Definition pluginInfoPath : string :=
  Path.resolve (cwd argv) [pluginSrc; pluginNamespace; "plugin.info"].

Definition outPath : paths :=
  {| bundle := "./bundle/"; dist := "./dist/"; docs := "./docs/"; maps := "./maps/" |}.

Definition mismatch : exn := Error "Gulp settings do not match the plugin.info".

(** [pluginTiddler !== title] *)
Definition differs (title : value) : bool :=
  match title with
  | Some (JStr t) => negb (String.eqb pluginTiddler t)
  | _ => true
  end.

(** The statements the module runs when it is loaded, before any task
    is defined: read and parse plugin.info, then the sanity check.
    Past the check [pluginInfo] is an object: only an object has a
    title. *)
Definition preprocessing : prog manifest :=
  text ← perform (ReadFileSync pluginInfoPath "utf8");
  pluginInfo ← perform (JSONparse text);
  title ← lift (property pluginInfo "title");
  if differs title then Raise mismatch
  else match pluginInfo with
       | JObj fields => mret fields
       | _ => Raise mismatch
       end.

(** *** Tasks *)

(** 'perform cleanup' *)
Definition cleanupPaths : list string :=
  [bundle outPath; dist outPath; docs outPath; maps outPath].

Definition perform_cleanup : prog unit :=
  perform (Del cleanupPaths true).

(** [v.build[0] || 0], as [parseInt] converts it to a string. *)
Definition first_build (build : list string) : string :=
  match build with
  | [] => "0"
  | EmptyString :: _ => "0"
  | b :: _ => b
  end.

(** The constant [build] of the task. *)
Definition build_suffix (v : SemVer.t) : result string :=
  if isIncrBuild cfg
  then n ← JS.number_to_string (JS.succ (JS.parseInt (first_build (SemVer.build v))));
       Ok ("+" +:+ n)
  else Ok "".

(** The constant [mode] of the task. *)
Definition mode_label : string :=
  match mode argv with
  | Some m =>
    if SemVer.nonempty m && negb (String.eqb m "master") then "-" +:+ m else ""
  | None => ""
  end.

(** The constant [version] of the task. *)
Definition base_version (v : SemVer.t) : string :=
  pretty (SemVer.major v) +:+ "." +:+ pretty (SemVer.minor v) +:+ "."
    +:+ pretty (SemVer.patch v) +:+ mode_label.

(** The version computed from the one the manifest holds: the constants
    [version] and [build]. *)
Definition derive_version (current : value) : result (string * string) :=
  v ← SemVer.new current;
  build ← build_suffix v;
  Ok (base_version v, build).

(** The value the task assigns to [pluginInfo.version]. *)
Definition new_version (current : value) : result string :=
  '(version, build) ← derive_version current;
  Ok (version +:+ build).

(** 'bump version'.  The task changes [pluginInfo] in place; the
    manifest it returns is the one later tasks see.  The gulp-bump stream
    is only started by the task, which calls back at once: the stream
    reads and rewrites package.json once the task has yielded, and a
    failure of the stream does not reach the task.  The stream is
    recorded where the task starts it, with the way it ends. *)
Definition bump_version (pluginInfo : manifest) : prog manifest :=
  '(version, build) ← lift (derive_version (get "version" pluginInfo));
  let pluginInfo := set "version" (JStr (version +:+ build)) pluginInfo in
  released ← perform UTCString;
  let pluginInfo := set "released" (JStr released) pluginInfo in
  perform (WriteFileSync pluginInfoPath (stringify (JObj pluginInfo)));;
  start (GulpBump "./package.json" "version" version "./");;
  mret pluginInfo.

(** The constant [outName] of the bundle task. *)
Definition outName (pluginInfo : manifest) : string :=
  pluginName cfg +:+ "_" +:+ value_to_string (get "version" pluginInfo) +:+ ".json".

(** The folder the bundle task loads and the file it writes. *)
Definition dist_folder : string :=
  Path.resolve (cwd argv) [dist outPath; pluginNamespace].

Definition artifact (pluginInfo : manifest) : string :=
  Path.resolve (cwd argv) [bundle outPath; outName pluginInfo].

(** 'bundle the plugin' *)
Definition bundle_the_plugin (pluginInfo : manifest) : prog unit :=
  perform (TiddlyWikiBoot ["--verbose"]);;
  plugin ← perform (LoadPluginFolder dist_folder);
  there ← perform (Exists (bundle outPath));
  (if (there : bool) then Ret tt else perform (MkdirSync (bundle outPath)));;
  perform (WriteFileSync (artifact pluginInfo) (stringify (JArr [plugin])));;
  perform Beep;;
  mret tt.

(** The tasks that only run a stream over the plugin sources: 'copy
    vanilla files', 'compile and move scripts' (which uglifies in
    production mode), 'Javascript validation' and 'create docs'. *)
Definition stream_task (name : string) : prog unit :=
  perform (GulpStream name (production argv)).

(** The manifest a bump leaves when it assigns [full] as the version
    and [now] as the release date. *)
Definition bumped (pluginInfo : manifest) (full now : string) : manifest :=
  set "released" (JStr now) (set "version" (JStr full) pluginInfo).

(** The tasks of the script by name; each returns the manifest it
    leaves.  'default' hands 'bump version' to run-sequence and stands
    for it. *)
Definition keep (p : prog unit) (pluginInfo : manifest) : prog manifest :=
  p;; mret pluginInfo.

Definition tasks : list (string * (manifest -> prog manifest)) :=
  [ ("perform cleanup", keep perform_cleanup);
    ("bump version", bump_version);
    ("copy vanilla files", keep (stream_task "copy vanilla files"));
    ("compile and move scripts", keep (stream_task "compile and move scripts"));
    ("Javascript validation", keep (stream_task "Javascript validation"));
    ("create docs", keep (stream_task "create docs"));
    ("bundle the plugin", fun pluginInfo => keep (bundle_the_plugin pluginInfo) pluginInfo);
    ("default", bump_version) ].

Fixpoint find_task (name : string) (l : list (string * (manifest -> prog manifest)))
  : option (manifest -> prog manifest) :=
  match l with
  | [] => None
  | (n, t) :: rest => if String.eqb n name then Some t else find_task name rest
  end.

(** The tasks gulp runs for the names it is given.  The names are
    resolved before any task runs: each task is taken once, where it is
    first named, and a name that is no task ([inl]) stops gulp with no
    task run. *)
Fixpoint plan (names seen : list string)
  : string + list (manifest -> prog manifest) :=
  match names with
  | [] => inr []
  | name :: rest =>
    if existsb (String.eqb name) seen then plan rest seen
    else match find_task name tasks with
         | None => inl name
         | Some t =>
           match plan rest (name :: seen) with
           | inl missing => inl missing
           | inr ts => inr (t :: ts)
           end
         end
  end.

Fixpoint run_tasks (ts : list (manifest -> prog manifest)) (pluginInfo : manifest)
  : prog manifest :=
  match ts with
  | [] => mret pluginInfo
  | t :: rest => pluginInfo ← t pluginInfo; run_tasks rest pluginInfo
  end.

(** A run of gulp: the module is loaded, then the named tasks run in
    sequence on the manifest the module holds.  'bump version' and
    'bundle the plugin' have called back when they return; a task that
    hands gulp a promise or a stream is taken to have ended when the next
    one starts. *)
Definition sequence (names : list string) (pluginInfo : manifest) : prog manifest :=
  match plan names [] with
  | inl name => Raise (Error ("Task '" +:+ name +:+ "' is not in your gulpfile"))
  | inr ts => run_tasks ts pluginInfo
  end.

Definition gulp (names : list string) : prog manifest :=
  pluginInfo ← preprocessing;
  sequence names pluginInfo.

End Script.

(** The fields of a manifest a bump has no business with. *)
Definition untouched (kv : string * json) : Prop :=
  fst kv <> "version" /\ fst kv <> "released".

End Gulpfile.

(** ** A world with a file table

    Files are kept by path.  [room] is the number of bytes the disk still
    takes ([None]: no limit): [writeFileSync] opens its file for writing,
    which empties it, and writes the data; when the room runs out the call
    throws and the file keeps the bytes written so far.  The clock, the
    JSON parser and the wiki's plugin loader are given by the [host].  The
    collaborators whose files lie outside the table (del, the gulp
    streams, the wiki boot, the beep) succeed and leave it alone. *)
Module Disk.
Import Json.

Record state : Type := {
  files : gmap string string;
  dirs : gset string;
  room : option nat
}.

Record host : Type := {
  clock : string;
  parser : string -> result json;
  loader : string -> result json
}.

Definition store (path data : string) (left : option nat) (s : state) : state :=
  {| files := <[path := data]> (files s); dirs := dirs s; room := left |}.

Definition writeFileSync (path data : string) (s : state) : result unit * state :=
  match room s with
  | None => (Ok tt, store path data None s)
  | Some n =>
    if (String.length data <=? n)%nat
    then (Ok tt, store path data (Some (n - String.length data)%nat) s)
    else (Throw (SystemError "ENOSPC"), store path (JS.take n data) (Some 0%nat) s)
  end.

Definition readFileSync (path : string) (s : state) : result string * state :=
  match files s !! path with
  | Some data => (Ok data, s)
  | None => (Throw (SystemError "ENOENT"), s)
  end.

Definition exists_ (path : string) (s : state) : bool :=
  bool_decide (path ∈ dirs s) || bool_decide (is_Some (files s !! path)).

Definition mkdirSync (path : string) (s : state) : result unit * state :=
  if exists_ path s then (Throw (SystemError "EEXIST"), s)
  else (Ok tt, {| files := files s; dirs := {[path]} ∪ dirs s; room := room s |}).

Definition respond (h : host) (X : Type) (c : call X) (s : state) : result X * state :=
  match c in call X return result X * state with
  | ReadFileSync path _ => readFileSync path s
  | JSONparse text => (parser h text, s)
  | UTCString => (Ok (clock h), s)
  | WriteFileSync path data => writeFileSync path data s
  | Exists path => (Ok (exists_ path s), s)
  | MkdirSync path => mkdirSync path s
  | Del _ _ => (Ok tt, s)
  | GulpBump _ _ _ _ => (Ok tt, s)
| GulpStream _ _ => (Ok tt, s)
  | TiddlyWikiBoot _ => (Ok tt, s)
  | LoadPluginFolder path => (loader h path, s)
  | Beep => (Ok tt, s)
  end.

Definition World (h : host) : world state := {| answer := respond h |}.

End Disk.

(** ** A sample project, for running the script *)
Module Sample.
Import Json Gulpfile.

Definition develop : invocation :=
  {| cwd := "/home/dev/tw5-pouchdb"; production := false; mode := Some "develop" |}.

Definition with_mode (m : option string) : invocation :=
  {| cwd := "/home/dev/tw5-pouchdb"; production := false; mode := m |}.

Definition auto (b : bool) : config :=
  {| authorName := "danielo515"; pluginName := "pouchdb"; isIncrBuild := b |}.

Definition pluginInfo : manifest :=
  [ ("title", JStr "$:/plugins/danielo515/pouchdb");
    ("description", JStr "PouchDB sync adaptor");
    ("version", JStr "1.2.5+3");
    ("released", JStr "Fri, 01 Jan 2016 00:00:00 GMT");
    ("list", JStr "readme") ].

(** A manifest written for another plugin. *)
Definition foreign : manifest :=
  [ ("title", JStr "$:/plugins/felixhayashi/tiddlymap"); ("version", JStr "0.9.0") ].

Definition plugin : json :=
  JObj [ ("title", JStr "$:/plugins/danielo515/pouchdb");
         ("type", JStr "application/json");
         ("text", JStr "{}") ].

(** The host parses the two manifests above and nothing else. *)
Definition the_host : Disk.host :=
  {| Disk.clock := "Mon, 02 Nov 2026 10:00:00 GMT";
     Disk.parser := fun text =>
       if String.eqb text (stringify (JObj pluginInfo)) then Ok (JObj pluginInfo)
       else if String.eqb text (stringify (JObj foreign)) then Ok (JObj foreign)
       else Throw (SyntaxError "Unexpected token");
     Disk.loader := fun _ => Ok plugin |}.

Definition disk (content : manifest) (left : option nat) : Disk.state :=
  {| Disk.files := {[ pluginInfoPath shipped develop := stringify (JObj content) ]};
     Disk.dirs := ∅;
     Disk.room := left |}.

(** The bump of the sample manifest on a disk without limit, and what
    it leaves in [pluginInfo]. *)
Definition bumping : result manifest * Disk.state * list event :=
  run (Disk.World the_host) (bump_version shipped develop pluginInfo) (disk pluginInfo None).

Definition after_bump : manifest :=
  [ ("title", JStr "$:/plugins/danielo515/pouchdb");
    ("description", JStr "PouchDB sync adaptor");
    ("version", JStr "1.2.5-develop+4");
    ("released", JStr "Mon, 02 Nov 2026 10:00:00 GMT");
    ("list", JStr "readme") ].

(** The same bump on a disk that takes twenty more bytes. *)
Definition interrupted : result manifest * Disk.state * list event :=
  run (Disk.World the_host) (bump_version shipped develop pluginInfo)
      (disk pluginInfo (Some 20%nat)).

(** The world of the sample host in which the gulp-bump stream fails. *)
Definition broken_stream : world Disk.state :=
  {| answer := fun X (c : call X) s =>
       match c in call X0 return result X0 * Disk.state with
       | GulpBump _ _ _ _ => (Throw (Error "Problem bumping"), s)
       | other => Disk.respond the_host _ other s
       end |}.

(** The sample host over a dist folder that holds no plugin: the wiki
    returns [null] for it. *)
Definition no_plugin : Disk.host :=
  {| Disk.clock := Disk.clock the_host;
     Disk.parser := Disk.parser the_host;
     Disk.loader := fun _ => Ok JNull |}.

(** The sample manifest with one more field: a number beyond the doubles,
    as [JSON.parse] reads [1e999], and [null]. *)
Definition unbounded : manifest := (pluginInfo ++ [("limit", JNum "Infinity")])%list.
Definition nulled : manifest := (pluginInfo ++ [("limit", JNull)])%list.

(** The bundle task after the bump. *)
Definition bundling : result unit * Disk.state * list event :=
  run (Disk.World the_host) (bundle_the_plugin shipped develop after_bump)
      (snd (fst bumping)).

End Sample.

(** ** Version texts

    The text of a version with given numbers, prerelease and build, and
    the conditions under which the strict parser reads it back. *)
Module Render.
Import JS.

(** A printable ASCII character other than the space. *)
Definition safe (c : ascii) : bool := (32 <? code c) && (code c <? 127).

(** The tests the strict pattern applies to a prerelease and to a build. *)
Definition valid_prerelease (p : string) : bool :=
  forallb SemVer.prerelease_identifier (split "." p).

Definition valid_build (b : string) : bool :=
  forallb SemVer.build_identifier (split "." b).

(** [s] begins with a digit. *)
Definition head_is_digit (s : string) : bool :=
  match s with
  | String c _ => is_digit c
  | EmptyString => false
  end.

Definition core (major minor patch : Z) : string :=
  pretty major +:+ "." +:+ pretty minor +:+ "." +:+ pretty patch.

Definition marked (mark : string) (part : option string) : string :=
  match part with
  | Some x => mark +:+ x
  | None => ""
  end.

Definition render (major minor patch : Z) (pre bld : option string) : string :=
  core major minor patch +:+ marked "-" pre +:+ marked "+" bld.

(** What [new SemVer] makes of such a text. *)
Definition parsed (major minor patch : Z) (pre bld : option string) : SemVer.t :=
  {| SemVer.raw := render major minor patch pre bld;
     SemVer.major := major; SemVer.minor := minor; SemVer.patch := patch;
     SemVer.prerelease := match pre with
                          | None => []
                          | Some p => map SemVer.numberify (split "." p)
                          end;
     SemVer.build := match bld with
                     | None => []
                     | Some b => split "." b
                     end |}.

(** The label the bump task takes from the mode, if any. *)
Definition label_of_mode (argv : Gulpfile.invocation) : option string :=
  match Gulpfile.mode argv with
  | Some m =>
    if SemVer.nonempty m && negb (String.eqb m "master") then Some m else None
  | None => None
  end.

(** The mode, when it gives a label, is a well-formed prerelease of at
    most 187 characters, so that a version carrying it stays within the
    256 characters the parser accepts. *)
Definition label_ok (argv : Gulpfile.invocation) : bool :=
  match label_of_mode argv with
  | Some m => valid_prerelease m && (String.length m <=? 187)%nat
  | None => true
  end.

End Render.

(** The folders an event list creates and the plugins the wiki returned
    in it. *)
Definition was_made (e : event) : option string :=
  match e with
  | Event c _ =>
    match c with
    | MkdirSync path => Some path
    | _ => None
    end
  end.

Definition mkdirs (tr : list event) : list string := omap was_made tr.

Definition was_loaded (e : event) : option Json.json :=
  match e with
  | Event c r =>
    match c in call X return result X -> option Json.json with
    | LoadPluginFolder _ => fun r => match r with Ok j => Some j | _ => None end
    | _ => fun _ => None
    end r
  end.

Definition loaded (tr : list event) : list Json.json := omap was_loaded tr.

(** The calls of the loading and of the bump: the script's own read,
    parse, clock and write, and the start of gulp-bump. *)
Definition of_bump (e : event) : bool :=
  match e with
  | Event c _ =>
    match c with
    | ReadFileSync _ _ | JSONparse _ | UTCString | WriteFileSync _ _
    | GulpBump _ _ _ _ => true
    | _ => false
    end
  end.

(** ** Tactics *)

Ltac unfold_monad :=
  unfold mbind, mret, prog_bind, prog_ret, result_mbind, result_ret, perform, start, lift
    in *.

(** Case analysis on the answer to the next call of a running program. *)
Ltac next_answer W :=
  match goal with
  | |- context [answer W ?c ?s0] => destruct (answer W c s0) as [[?|?|] ?]; simpl
  end.

(** * Properties *)

(** ** Strings *)
Module StringFacts.
Import JS.

Lemma append_length (a b : string) :
  String.length (a +:+ b) = (String.length a + String.length b)%nat.
Proof. induction a as [|c a IH]; simpl; [reflexivity | f_equal; exact IH]. Qed.

Lemma append_empty (a : string) : a +:+ "" = a.
Proof.
  induction a as [|c a IH]; [reflexivity|].
  change (String c (a +:+ "") = String c a). f_equal. exact IH.
Qed.

Lemma append_assoc (a b c : string) : (a +:+ b) +:+ c = a +:+ (b +:+ c).
Proof.
  induction a as [|x a IH]; [reflexivity|].
  change (String x ((a +:+ b) +:+ c) = String x (a +:+ (b +:+ c))).
  f_equal. exact IH.
Qed.

(** A version with a build suffix is not the version without it. *)
Lemma append_plus_differs (a n : string) : a +:+ "+" +:+ n <> a.
Proof.
  intros H. apply (f_equal String.length) in H.
  rewrite !append_length in H. simpl in H. lia.
Qed.

Lemma forall_chars_app p a b :
  forall_chars p (a +:+ b) = forall_chars p a && forall_chars p b.
Proof.
  induction a as [|c a IH]; [reflexivity|].
  change (p c && forall_chars p (a +:+ b) = p c && forall_chars p a && forall_chars p b).
  rewrite IH. apply andb_assoc.
Qed.

Lemma forall_chars_impl (p q : ascii -> bool) s :
  (forall c, p c = true -> q c = true) ->
  forall_chars p s = true -> forall_chars q s = true.
Proof.
  intros Hpq. induction s as [|c s IH]; simpl; [reflexivity|].
  rewrite !andb_true_iff. intros [Hc Hs]. split; auto.
Qed.

End StringFacts.

(** ** Objects *)
Module JsonFacts.
Import Json.

Lemma get_set_eq k v m : get k (set k v m) = Some v.
Proof.
  induction m as [|[k' v'] m IH]; simpl.
  - rewrite String.eqb_refl. reflexivity.
  - destruct (String.eqb k' k) eqn:E; simpl.
    + rewrite String.eqb_refl. reflexivity.
    + rewrite E. exact IH.
Qed.

Lemma get_set_ne k k' v m : k <> k' -> get k' (set k v m) = get k' m.
Proof.
  intros Hne. induction m as [|[k0 v0] m IH]; simpl.
  - destruct (String.eqb k k') eqn:E; [|reflexivity].
    apply String.eqb_eq in E. contradiction.
  - destruct (String.eqb k0 k) eqn:E; simpl.
    + apply String.eqb_eq in E. subst k0.
      destruct (String.eqb k k') eqn:E'; [|reflexivity].
      apply String.eqb_eq in E'. contradiction.
    + rewrite IH. reflexivity.
Qed.

(** An assignment to [k] leaves the other fields where they are: any
    selection of fields that leaves [k] out reads the same before and
    after. *)
Lemma set_frame (P : string * json -> Prop) `{!forall kv, Decision (P kv)} k v m :
  (forall x, ~ P (k, x)) ->
  filter P (set k v m) = filter P m.
Proof.
  intros HP. induction m as [|[k0 v0] m IH]; simpl.
  - rewrite filter_cons_False by apply HP. reflexivity.
  - destruct (String.eqb k0 k) eqn:E.
    + apply String.eqb_eq in E. subst k0.
      rewrite !filter_cons_False by apply HP. reflexivity.
    + destruct (decide (P (k0, v0))) as [Hp|Hp].
      * rewrite !filter_cons_True by exact Hp. rewrite IH. reflexivity.
      * rewrite !filter_cons_False by exact Hp. exact IH.
Qed.

End JsonFacts.

(** ** Running programs *)
Module RunFacts.

Lemma run_bind {S A B} (W : world S) (p : prog A) (f : A -> prog B) (s : S) :
  run W (bind p f) s =
  match run W p s with
  | (Ok a, s1, tr1) => let '(r, s2, tr2) := run W (f a) s1 in (r, s2, (tr1 ++ tr2)%list)
  | (Throw e, s1, tr1) => (Throw e, s1, tr1)
  | (Untracked, s1, tr1) => (Untracked, s1, tr1)
  end.
Proof.
  revert s. induction p as [a|e| |X c k IH|X c k IH]; intros s; simpl.
  - destruct (run W (f a) s) as [[r s2] tr2]. reflexivity.
  - reflexivity.
  - reflexivity.
  - destruct (answer W c s) as [[x|e|] s1]; try reflexivity.
    rewrite IH. destruct (run W (k x) s1) as [[[a|e|] s2] tr1]; try reflexivity.
    destruct (run W (f a) s2) as [[r s3] tr2]. reflexivity.
  - destruct (answer W c s) as [r0 s1]. rewrite IH.
    destruct (run W k s1) as [[[a|e|] s2] tr1]; try reflexivity.
    destruct (run W (f a) s2) as [[r s3] tr2]. reflexivity.
Qed.

End RunFacts.

(** ** The version grammar *)
Module SemVerFacts.
Import JS SemVer StringFacts.

Lemma pretty_N_char_digit k : is_digit (pretty_N_char k) = true.
Proof. unfold pretty_N_char. repeat case_match; reflexivity. Qed.

Lemma pretty_N_go_digits x s :
  forall_chars is_digit s = true -> forall_chars is_digit (pretty_N_go x s) = true.
Proof.
  revert s. induction (N.lt_wf_0 x) as [x _ IH]. intros s Hs.
  destruct (N.eq_dec x 0%N) as [->|Hx].
  - rewrite pretty_N_go_0. exact Hs.
  - rewrite pretty_N_go_step by lia. apply IH.
    + apply N.div_lt; lia.
    + simpl. rewrite pretty_N_char_digit. exact Hs.
Qed.

(** A number that is not negative prints as digits. *)
Lemma pretty_digits (z : Z) : 0 <= z -> forall_chars is_digit (pretty z) = true.
Proof.
  destruct z as [|p|p]; intros Hz; [reflexivity| |lia].
  unfold pretty, pretty_Z, pretty, pretty_positive, pretty, pretty_N.
  case_decide; [reflexivity|]. apply pretty_N_go_digits. reflexivity.
Qed.

Lemma digit_value_nonneg c d : digit_value c = Some d -> 0 <= d.
Proof.
  unfold digit_value, is_digit, is_lower, is_upper.
  repeat case_match; intros [= <-]; lia.
Qed.

Lemma leading_digits_nonneg R s : Forall (fun d => 0 <= d) (leading_digits R s).
Proof.
  induction s as [|c s IH]; simpl; [constructor|].
  destruct (digit_value c) as [d|] eqn:E; [|constructor].
  destruct (d <? R); constructor; [eapply digit_value_nonneg; eassumption | exact IH].
Qed.

Lemma digits_value_nonneg R ds :
  0 <= R -> Forall (fun d => 0 <= d) ds -> 0 <= digits_value R ds.
Proof.
  intros HR. unfold digits_value.
  assert (G : forall acc, 0 <= acc -> Forall (fun d => 0 <= d) ds ->
                          0 <= fold_left (fun acc d => acc * R + d) ds acc).
  { induction ds as [|d ds IH]; intros acc Hacc Hds; simpl; [exact Hacc|].
    inversion Hds; subst. apply IH; [nia | assumption]. }
  apply G. lia.
Qed.

Lemma decimal_nonneg s : 0 <= decimal s.
Proof. apply digits_value_nonneg; [lia | apply leading_digits_nonneg]. Qed.

Lemma new_nonneg current v :
  new current = Ok v -> 0 <= major v /\ 0 <= minor v /\ 0 <= patch v.
Proof.
  unfold new. destruct current as [[| | |s| |]|]; try discriminate.
  destruct (MAX_LENGTH <? utf16_length s); [discriminate|].
  destruct (match_full (trim s)) as [[[[[ma mi] pa] pre] bld]|]; [|discriminate].
  destruct (MAX_SAFE_INTEGER <? decimal ma); [discriminate|].
  destruct (MAX_SAFE_INTEGER <? decimal mi); [discriminate|].
  destruct (MAX_SAFE_INTEGER <? decimal pa); [discriminate|].
  intros [= <-]. simpl. auto using decimal_nonneg.
Qed.

(** Cutting at [sep] skips a prefix that holds no [sep]. *)
Lemma cut_app sep a b :
  forall_chars (fun c => negb (Ascii.eqb c sep)) a = true ->
  cut sep (a +:+ b) = (a +:+ fst (cut sep b), snd (cut sep b)).
Proof.
  induction a as [|c a IH]; intros Ha.
  - change (cut sep b = (fst (cut sep b), snd (cut sep b))).
    destruct (cut sep b); reflexivity.
  - simpl in Ha. apply andb_true_iff in Ha as [Hc Ha].
    change (cut sep (String c (a +:+ b)) = (String c (a +:+ fst (cut sep b)), snd (cut sep b))).
    simpl. apply negb_true_iff in Hc. rewrite Hc, (IH Ha). reflexivity.
Qed.

Lemma core_chars (a b c : Z) :
  0 <= a -> 0 <= b -> 0 <= c ->
  forall_chars is_core_char (pretty a +:+ "." +:+ pretty b +:+ "." +:+ pretty c) = true.
Proof.
  intros Ha Hb Hc.
  assert (D : forall z, 0 <= z -> forall_chars is_core_char (pretty z) = true).
  { intros z Hz. apply (forall_chars_impl is_digit); [|apply pretty_digits; exact Hz].
    intros ch H. unfold is_core_char. rewrite H. reflexivity. }
  rewrite !forall_chars_app, !D by assumption. reflexivity.
Qed.

Lemma core_char_not (sep : ascii) s :
  is_core_char sep = false ->
  forall_chars is_core_char s = true ->
  forall_chars (fun c => negb (Ascii.eqb c sep)) s = true.
Proof.
  intros Hsep. apply forall_chars_impl. intros c Hc.
  apply negb_true_iff. apply Ascii.eqb_neq. intros ->. congruence.
Qed.

(** What precedes the build marker of a version with a build suffix, or
    with none. *)
Lemma cut_build (a build : string) :
  no_plus a = true ->
  build = "" \/ (exists n, build = "+" +:+ n) ->
  fst (cut "+" (a +:+ build)) = a.
Proof.
  intros Ha Hb. rewrite cut_app by exact Ha. simpl.
  destruct Hb as [->|[n ->]]; apply append_empty.
Qed.

End SemVerFacts.

(** ** Paths *)
Module PathFacts.
Import JS Path StringFacts.

Lemma split_nonempty sep s : split sep s <> [].
Proof.
  destruct s as [|c s]; simpl; [discriminate|].
  destruct (Ascii.eqb c sep); [discriminate|].
  destruct (split sep s); discriminate.
Qed.

Lemma split_app sep a b :
  split sep (a +:+ String sep b) = (split sep a ++ split sep b)%list.
Proof.
  induction a as [|c a IH].
  - change (split sep (String sep b) = ("" :: split sep b)).
    simpl. rewrite Ascii.eqb_refl. reflexivity.
  - change (split sep (String c (a +:+ String sep b))
            = (split sep (String c a) ++ split sep b)%list).
    simpl. destruct (Ascii.eqb c sep).
    + rewrite IH. reflexivity.
    + rewrite IH. destruct (split sep a) as [|h t] eqn:E.
      * exfalso. exact (split_nonempty _ _ E).
      * reflexivity.
Qed.

Lemma split_plain sep s :
  forall_chars (fun c => negb (Ascii.eqb c sep)) s = true -> split sep s = [s].
Proof.
  induction s as [|c s IH]; simpl; [reflexivity|].
  intros H. apply andb_true_iff in H as [Hc Hs]. apply negb_true_iff in Hc.
  rewrite Hc, (IH Hs). reflexivity.
Qed.

Lemma split_no_sep sep s :
  Forall (fun x => forall_chars (fun c => negb (Ascii.eqb c sep)) x = true) (split sep s).
Proof.
  induction s as [|c s IH]; simpl.
  - repeat constructor.
  - destruct (Ascii.eqb c sep) eqn:E.
    + constructor; [reflexivity | exact IH].
    + destruct (split sep s) as [|h t]; [repeat constructor; simpl; rewrite E; reflexivity|].
      inversion IH; subst. constructor; [|assumption].
      simpl. rewrite E. simpl. assumption.
Qed.

Lemma gather_acc cwd l acc : gather cwd l acc = gather cwd l "" +:+ acc.
Proof.
  revert acc. induction l as [|p l IH]; intros acc.
  - simpl. rewrite !append_assoc. reflexivity.
  - destruct p as [|c p]; [apply IH|].
    change (gather cwd (String c p :: l) acc)
      with (if is_absolute (String c p) then String c p +:+ "/" +:+ acc
            else gather cwd l (String c p +:+ "/" +:+ acc)).
    change (gather cwd (String c p :: l) "")
      with (if is_absolute (String c p) then String c p +:+ "/" +:+ ""
            else gather cwd l (String c p +:+ "/" +:+ "")).
    destruct (is_absolute (String c p)).
    + rewrite !append_assoc. reflexivity.
    + rewrite (IH (String c p +:+ "/" +:+ acc)), (IH (String c p +:+ "/" +:+ "")).
      rewrite !append_assoc. reflexivity.
Qed.

Lemma gather_slash cwd l : exists P, gather cwd l "" = P +:+ "/".
Proof.
  induction l as [|p l IH].
  - exists cwd. reflexivity.
  - destruct p as [|c p]; [exact IH|].
    change (gather cwd (String c p :: l) "")
      with (if is_absolute (String c p) then String c p +:+ "/" +:+ ""
            else gather cwd l (String c p +:+ "/" +:+ "")).
    destruct (is_absolute (String c p)).
    + exists (String c p). reflexivity.
    + destruct IH as [P HP]. rewrite gather_acc, HP.
      exists (P +:+ "/" +:+ String c p). rewrite !append_assoc. reflexivity.
Qed.

Lemma is_segment_plain name : is_segment name = true -> plain name.
Proof.
  unfold is_segment, plain. intros H. apply andb_true_iff in H as [Hs Hn].
  split; [exact Hs|]. destruct name; [discriminate | reflexivity].
Qed.

Lemma push_segment stack name : is_segment name = true -> push stack name = (stack ++ [name])%list.
Proof.
  unfold is_segment, push. intros H. apply andb_true_iff in H as [_ Hn].
  apply negb_true_iff in Hn. apply orb_false_iff in Hn as [Hn H2].
  apply orb_false_iff in Hn as [H0 H1]. rewrite H0, H1, H2. reflexivity.
Qed.

Lemma Forall_removelast {A} (P : A -> Prop) l : Forall P l -> Forall P (removelast l).
Proof.
  induction 1 as [|x l Hx Hl IH]; simpl; [constructor|].
  destruct l; [constructor|]. constructor; assumption.
Qed.

Lemma push_plain stack seg :
  Forall plain stack -> no_slash seg = true -> Forall plain (push stack seg).
Proof.
  intros Hst Hseg. unfold push.
  destruct (String.eqb seg "" || String.eqb seg ".") eqn:E; [exact Hst|].
  destruct (String.eqb seg ".."); [apply Forall_removelast; exact Hst|].
  apply Forall_app. split; [exact Hst|]. constructor; [|constructor].
  split; [exact Hseg|]. destruct seg; [discriminate | reflexivity].
Qed.

Lemma normalize_plain segs acc :
  Forall plain acc -> Forall (fun x => no_slash x = true) segs ->
  Forall plain (fold_left push segs acc).
Proof.
  revert acc. induction segs as [|x segs IH]; intros acc Hacc Hs; simpl; [exact Hacc|].
  inversion Hs; subst. apply IH; [apply push_plain|]; assumption.
Qed.

Lemma split_join l :
  l <> [] -> Forall plain l -> split "/" (Json.join "/" l) = l.
Proof.
  induction l as [|x l IH]; [contradiction|].
  intros _ Hl. inversion Hl as [|? ? [Hx _] Hl']; subst.
  destruct l as [|y l].
  - simpl. apply split_plain. exact Hx.
  - change (Json.join "/" (x :: y :: l)) with (x +:+ String "/" (Json.join "/" (y :: l))).
    rewrite split_app, (split_plain _ _ Hx), IH; [reflexivity|discriminate|assumption].
Qed.

Lemma filter_plain l : Forall plain l -> List.filter SemVer.nonempty l = l.
Proof.
  induction 1 as [|x l [_ Hx] Hl IH]; simpl; [reflexivity|].
  rewrite Hx, IH. reflexivity.
Qed.

(** The last argument of [resolve], when it is a plain segment, is the
    base name of the result. *)
Lemma basename_resolve cwd dirs name :
  is_segment name = true -> basename (resolve cwd (dirs ++ [name])) = name.
Proof.
  intros Hname. pose proof (is_segment_plain _ Hname) as [Hs Hn].
  unfold resolve. rewrite rev_app_distr. simpl rev. simpl List.app.
  assert (G : gather cwd (name :: rev dirs) "" = gather cwd (rev dirs) (name +:+ "/" +:+ "")).
  { destruct name as [|c name]; [discriminate|].
    change (gather cwd (String c name :: rev dirs) "")
      with (if is_absolute (String c name) then String c name +:+ "/" +:+ ""
            else gather cwd (rev dirs) (String c name +:+ "/" +:+ "")).
    assert (A : is_absolute (String c name) = false).
    { unfold no_slash in Hs. simpl in Hs. apply andb_true_iff in Hs as [Hc _].
      apply negb_true_iff in Hc. simpl.
      destruct (Ascii.eqb_spec c "/") as [->|Hne]; [discriminate|].
      destruct c as [[] [] [] [] [] [] [] []]; try reflexivity. contradiction. }
    rewrite A. reflexivity. }
  rewrite G, gather_acc. destruct (gather_slash cwd (rev dirs)) as [P ->].
  rewrite append_assoc.
  change ("/" +:+ name +:+ "/" +:+ "") with (String "/" (name +:+ String "/" "")).
  rewrite !split_app, (split_plain _ _ Hs).
  change (split "/" "") with [""].
  unfold normalize. rewrite fold_left_app. fold (normalize (split "/" P)).
  simpl fold_left. rewrite (push_segment _ _ Hname).
  change (push (normalize (split "/" P) ++ [name]) "") with (normalize (split "/" P) ++ [name])%list.
  assert (St : Forall plain (normalize (split "/" P) ++ [name])).
  { apply Forall_app. split.
    - apply normalize_plain; [constructor | apply split_no_sep].
    - constructor; [split; assumption | constructor]. }
  unfold basename.
  change (split "/" ("/" +:+ Json.join "/" (normalize (split "/" P) ++ [name])))
    with (split "/" ("" +:+ String "/" (Json.join "/" (normalize (split "/" P) ++ [name])))).
  rewrite split_app. change (split "/" "") with [""]. simpl List.app. simpl List.filter.
  rewrite split_join; [|intros E; apply app_eq_nil in E as [_ E]; discriminate|exact St].
  rewrite (filter_plain _ St). apply last_last.
Qed.

End PathFacts.

(** ** The derived version *)
Module VersionFacts.
Import Json Gulpfile Sample StringFacts SemVerFacts.

Lemma new_version_of_derive cfg argv current version build :
  derive_version cfg argv current = Ok (version, build) ->
  new_version cfg argv current = Ok (version +:+ build).
Proof. intros H. unfold new_version. unfold_monad. rewrite H. reflexivity. Qed.

Lemma derive_of_new_version cfg argv current next :
  new_version cfg argv current = Ok next ->
  exists version build,
    derive_version cfg argv current = Ok (version, build) /\ next = version +:+ build.
Proof.
  unfold new_version. unfold_monad.
  destruct (derive_version cfg argv current) as [[version build]|e|]; simpl;
    try discriminate.
  intros [= <-]. exists version, build. split; reflexivity.
Qed.

(** The build suffix is empty when the build number is not incremented,
    and starts with the build marker when it is. *)
Lemma build_suffix_shape cfg v build :
  build_suffix cfg v = Ok build ->
  (isIncrBuild cfg = false -> build = "")
  /\ (isIncrBuild cfg = true -> exists n, build = "+" +:+ n).
Proof.
  unfold build_suffix. unfold_monad.
  destruct (isIncrBuild cfg).
  - destruct (JS.number_to_string _) as [n|e|]; simpl; try discriminate.
    intros [= <-]. split; [discriminate|]. intros _. exists n. reflexivity.
  - intros [= <-]. split; [reflexivity | discriminate].
Qed.

Lemma derive_version_shape cfg argv current version build :
  derive_version cfg argv current = Ok (version, build) ->
  exists v, SemVer.new current = Ok v
            /\ version = base_version argv v
            /\ build_suffix cfg v = Ok build.
Proof.
  unfold derive_version. unfold_monad.
  destruct (SemVer.new current) as [v|e|]; simpl; try discriminate.
  destruct (build_suffix cfg v) as [b|e|] eqn:B; simpl; try discriminate.
  intros [= <- <-]. exists v. auto.
Qed.

(** A version without build metadata counts from zero. *)
Lemma absent_build_counts_from_zero cfg v :
  isIncrBuild cfg = true -> SemVer.build v = [] -> build_suffix cfg v = Ok "+1".
Proof. intros Hc Hb. unfold build_suffix. rewrite Hc, Hb. reflexivity. Qed.

Lemma mode_label_cases argv :
  (mode argv = None \/ mode argv = Some "master" -> mode_label argv = "")
  /\ (forall m, mode argv = Some m -> m <> "" -> m <> "master" ->
                mode_label argv = "-" +:+ m).
Proof.
  unfold mode_label. split.
  - intros [->| ->]; reflexivity.
  - intros m -> Hne Hm. destruct m as [|c m]; [contradiction|].
    apply String.eqb_neq in Hm.
    change (SemVer.nonempty (String c m)) with true. rewrite Hm. reflexivity.
Qed.

(** The prerelease the grammar finds in a derived version is the label
    the derivation appended, if any. *)
Lemma label_of_version (cfg : config) (v : SemVer.t) (lbl build : string) :
  0 <= SemVer.major v -> 0 <= SemVer.minor v -> 0 <= SemVer.patch v ->
  build_suffix cfg v = Ok build ->
  let core := pretty (SemVer.major v) +:+ "." +:+ pretty (SemVer.minor v)
                +:+ "." +:+ pretty (SemVer.patch v) in
  (SemVer.label ((core +:+ "") +:+ build) = None)
  /\ (SemVer.no_plus lbl = true ->
      SemVer.label ((core +:+ "-" +:+ lbl) +:+ build) = Some lbl).
Proof.
  intros H1 H2 H3 B core.
  assert (C : JS.forall_chars SemVer.is_core_char core = true)
    by (apply core_chars; assumption).
  assert (Hb : build = "" \/ exists n, build = "+" +:+ n).
  { destruct (build_suffix_shape _ _ _ B) as [Hoff Hon].
    destruct (isIncrBuild cfg); [right; apply Hon | left; apply Hoff]; reflexivity. }
  assert (Cp : SemVer.no_plus core = true)
    by (apply core_char_not; [reflexivity | exact C]).
  assert (Cm : JS.forall_chars (fun c => negb (Ascii.eqb c "-")) core = true)
    by (apply core_char_not; [reflexivity | exact C]).
  unfold SemVer.label. split.
  - rewrite append_empty, cut_build by assumption.
    rewrite <- (append_empty core) at 1. rewrite cut_app by exact Cm. reflexivity.
  - intros Hl. rewrite cut_build; [| |exact Hb].
    + rewrite cut_app by exact Cm. reflexivity.
    + unfold SemVer.no_plus in *. rewrite forall_chars_app, Cp. simpl. exact Hl.
Qed.

Lemma base_version_core argv v :
  base_version argv v =
  (pretty (SemVer.major v) +:+ "." +:+ pretty (SemVer.minor v) +:+ "."
     +:+ pretty (SemVer.patch v)) +:+ mode_label argv.
Proof. unfold base_version. rewrite !append_assoc. reflexivity. Qed.

(** C1.  The three test vectors of the version derivation: a build
    counter 3 under mode develop becomes 1.2.5-develop+4; mode master
    without automatic increment leaves 1.2.5; no mode and a counter 9 give
    2.0.0+10. *)
Theorem derive_version_vectors :
  new_version (auto true) (with_mode (Some "develop")) (Some (JStr "1.2.5+3"))
    = Ok "1.2.5-develop+4"
  /\ new_version (auto false) (with_mode (Some "master")) (Some (JStr "1.2.5"))
    = Ok "1.2.5"
  /\ new_version (auto true) (with_mode None) (Some (JStr "2.0.0+9"))
    = Ok "2.0.0+10".
Proof. repeat split; vm_compute; reflexivity. Qed.

(** C2.  At a version whose build metadata holds no number the script
    does not count from zero: [parseInt] gives NaN and the new version
    ends in +NaN, where the claim promises +1. *)
Theorem non_numeric_build_gives_NaN :
  new_version shipped (with_mode None) (Some (JStr "1.2.5+abc")) = Ok "1.2.5+NaN".
Proof. vm_compute. reflexivity. Qed.

(** C8.  For every current version and every setting of the automatic
    increment, mode master derives the same version as no mode at all, and
    so does the empty mode. *)
Theorem master_is_no_mode (cfg : config) (argv : invocation) (current : value) :
  let at_mode m := {| cwd := cwd argv; production := production argv; mode := m |} in
  derive_version cfg (at_mode (Some "master")) current
    = derive_version cfg (at_mode None) current
  /\ derive_version cfg (at_mode (Some "")) current
    = derive_version cfg (at_mode None) current
  /\ new_version cfg (at_mode (Some "master")) current
    = new_version cfg (at_mode None) current.
Proof.
  intros at_mode.
  assert (H : forall m, mode_label (at_mode (Some m)) = mode_label (at_mode None) ->
              derive_version cfg (at_mode (Some m)) current
              = derive_version cfg (at_mode None) current).
  { intros m Hm. unfold derive_version, base_version. rewrite Hm. reflexivity. }
  split; [|split].
  - apply H. reflexivity.
  - apply H. reflexivity.
  - unfold new_version. rewrite H; reflexivity.
Qed.

(** C10.  A current version that carries a prerelease label loses it: the
    new version is rebuilt from major, minor and patch, it is the same for
    every version with these numbers and this build metadata, and the
    label the grammar finds in it is the mode of this invocation: none
    when the mode is absent or master. *)
Theorem prerelease_label_discarded
    (cfg : config) (argv : invocation) (current : string) (v : SemVer.t) :
  SemVer.new (Some (JStr current)) = Ok v ->
  SemVer.prerelease v <> [] ->
  derive_version cfg argv (Some (JStr current))
    = (build ← build_suffix cfg v;
       Ok (pretty (SemVer.major v) +:+ "." +:+ pretty (SemVer.minor v) +:+ "."
             +:+ pretty (SemVer.patch v) +:+ mode_label argv, build))
  /\ (forall other w,
        SemVer.new other = Ok w ->
        SemVer.major w = SemVer.major v -> SemVer.minor w = SemVer.minor v ->
        SemVer.patch w = SemVer.patch v -> SemVer.build w = SemVer.build v ->
        derive_version cfg argv other = derive_version cfg argv (Some (JStr current)))
  /\ (forall next,
        new_version cfg argv (Some (JStr current)) = Ok next ->
        (mode argv = None \/ mode argv = Some "master" -> SemVer.label next = None)
        /\ (forall m, mode argv = Some m -> m <> "" -> m <> "master" ->
                      SemVer.no_plus m = true -> SemVer.label next = Some m)).
Proof.
  intros Hv _. split; [|split].
  - unfold derive_version. unfold_monad. rewrite Hv. reflexivity.
  - intros other w Hw E1 E2 E3 E4.
    unfold derive_version, base_version, build_suffix. unfold_monad.
    rewrite Hv, Hw. simpl. rewrite E1, E2, E3, E4. reflexivity.
  - intros next Hn.
    destruct (derive_of_new_version _ _ _ _ Hn) as (version & build & D & ->).
    destruct (derive_version_shape _ _ _ _ _ D) as (v' & Hv' & -> & B).
    rewrite Hv in Hv'. injection Hv' as <-.
    destruct (new_nonneg _ _ Hv) as (P1 & P2 & P3).
    destruct (mode_label_cases argv) as [Lnone Lsome].
    rewrite base_version_core. split.
    + intros Hm. rewrite (Lnone Hm).
      apply (label_of_version cfg v "" build P1 P2 P3 B).
    + intros m Hm Hne Hmaster Hp. rewrite (Lsome m Hm Hne Hmaster).
      apply (label_of_version cfg v m build P1 P2 P3 B). exact Hp.
Qed.

Lemma prerelease_label_discarded_witness :
  let v := {| SemVer.raw := "1.2.5-testing+3"; SemVer.major := 1; SemVer.minor := 2;
              SemVer.patch := 5; SemVer.prerelease := [SemVer.Alnum "testing"];
              SemVer.build := ["3"] |} in
  SemVer.new (Some (JStr "1.2.5-testing+3")) = Ok v
  /\ SemVer.prerelease v <> []
  /\ derive_version shipped develop (Some (JStr "1.2.5-testing+3"))
     = Ok ("1.2.5-develop", "+4")
  /\ SemVer.label "1.2.5-develop+4" = Some "develop".
Proof.
  intros v.
  assert (Hv : SemVer.new (Some (JStr "1.2.5-testing+3")) = Ok v) by reflexivity.
  assert (Hp : SemVer.prerelease v <> []) by discriminate.
  destruct (prerelease_label_discarded shipped develop "1.2.5-testing+3" v Hv Hp)
    as (D & _ & L).
  split; [exact Hv|]. split; [exact Hp|]. split.
  - rewrite D. reflexivity.
  - apply (L "1.2.5-develop+4"); try reflexivity; discriminate.
Defined.

End VersionFacts.

(** ** The bump task *)
Module BumpFacts.
Import Json Gulpfile Sample StringFacts JsonFacts VersionFacts.

(** A bump that completes has derived a version, asked the clock, written
    the manifest and started gulp-bump with the version, in this order;
    how the stream ends is of no account. *)
Lemma bump_version_ok
    (cfg : config) (argv : invocation) {S : Type} (W : world S)
    (m m' : manifest) (s s' : S) (tr : list event) :
  run W (bump_version cfg argv m) s = (Ok m', s', tr) ->
  exists version build now s1 s2 u1 outcome,
    derive_version cfg argv (get "version" m) = Ok (version, build)
    /\ answer W UTCString s = (Ok now, s1)
    /\ m' = bumped m (version +:+ build) now
    /\ answer W (WriteFileSync (pluginInfoPath cfg argv) (stringify (JObj m'))) s1
       = (Ok u1, s2)
    /\ answer W (GulpBump "./package.json" "version" version "./") s2 = (outcome, s')
    /\ tr = [ Event UTCString (Ok now);
              Event (WriteFileSync (pluginInfoPath cfg argv) (stringify (JObj m'))) (Ok u1);
              Event (GulpBump "./package.json" "version" version "./") outcome ].
Proof.
  unfold bump_version. unfold_monad.
  destruct (derive_version cfg argv (get "version" m)) as [[version build]|e|] eqn:D;
    simpl; try discriminate.
  destruct (answer W UTCString s) as [[now|e|] s1] eqn:A1; try discriminate.
  destruct (answer W (WriteFileSync _ _) s1) as [[u1|e|] s2] eqn:A2; try discriminate.
  destruct (answer W (GulpBump _ _ _ _) s2) as [outcome s3] eqn:A3.
  intros H. injection H as <- <- <-.
  exists version, build, now, s1, s2, u1, outcome. repeat split; assumption.
Qed.

Lemma bumped_version m full now : get "version" (bumped m full now) = Some (JStr full).
Proof. unfold bumped. rewrite get_set_ne by discriminate. apply get_set_eq. Qed.

Lemma sample_bump :
  run (Disk.World the_host) (bump_version shipped develop pluginInfo) (disk pluginInfo None)
  = (Ok after_bump, snd (fst bumping), snd bumping).
Proof. vm_compute. reflexivity. Qed.

(** C3, as the script has it.  When the bump completes, the version
    handed to the package descriptor is the new version of the manifest
    without its build suffix; the two files hold the same version when the
    build number is not incremented, and differ when it is. *)
Theorem package_version_drops_build
    (cfg : config) (argv : invocation) {S : Type} (W : world S)
    (m m' : manifest) (s s' : S) (tr : list event) :
  run W (bump_version cfg argv m) s = (Ok m', s', tr) ->
  exists version build,
    derive_version cfg argv (get "version" m) = Ok (version, build)
    /\ get "version" m' = Some (JStr (version +:+ build))
    /\ writes tr = [(pluginInfoPath cfg argv, stringify (JObj m'))]
    /\ bumps tr = [("./package.json", "version", version)]
    /\ (isIncrBuild cfg = false -> get "version" m' = Some (JStr version))
    /\ (isIncrBuild cfg = true -> get "version" m' <> Some (JStr version)).
Proof.
  intros H.
  destruct (bump_version_ok _ _ _ _ _ _ _ _ H)
    as (version & build & now & s1 & s2 & u1 & u2 & D & A1 & -> & A2 & A3 & ->).
  exists version, build.
  pose proof (bumped_version m (version +:+ build) now) as G.
  destruct (derive_version_shape _ _ _ _ _ D) as (v & _ & _ & B).
  destruct (build_suffix_shape _ _ _ B) as [Hoff Hon].
  repeat split; try assumption; try reflexivity.
  - intros Hc. rewrite G, (Hoff Hc), append_empty. reflexivity.
  - intros Hc. rewrite G. destruct (Hon Hc) as [n ->].
    intros [= E]. exact (append_plus_differs _ _ E).
Qed.

Lemma package_version_drops_build_witness :
  run (Disk.World the_host) (bump_version shipped develop pluginInfo) (disk pluginInfo None)
    = (Ok after_bump, snd (fst bumping), snd bumping)
  /\ exists version build,
       derive_version shipped develop (get "version" pluginInfo) = Ok (version, build)
       /\ get "version" after_bump = Some (JStr (version +:+ build))
       /\ writes (snd bumping)
          = [(pluginInfoPath shipped develop, stringify (JObj after_bump))]
       /\ bumps (snd bumping) = [("./package.json", "version", version)]
       /\ (isIncrBuild shipped = false -> get "version" after_bump = Some (JStr version))
       /\ (isIncrBuild shipped = true -> get "version" after_bump <> Some (JStr version)).
Proof.
  assert (R : run (Disk.World the_host) (bump_version shipped develop pluginInfo)
                  (disk pluginInfo None)
              = (Ok after_bump, snd (fst bumping), snd bumping))
    by (vm_compute; reflexivity).
  split; [exact R|].
  exact (package_version_drops_build shipped develop (Disk.World the_host)
           pluginInfo after_bump (disk pluginInfo None) (snd (fst bumping)) (snd bumping) R).
Defined.

(** C3, as the claim states it, fails: the shipped script bumps the sample
    manifest to 1.2.5-develop+4 and hands 1.2.5-develop to gulp-bump. *)
Lemma package_version_differs :
  ~ (forall (W : world Disk.state) (s s' : Disk.state) (m m' : manifest) (tr : list event),
       run W (bump_version shipped develop m) s = (Ok m', s', tr) ->
       forall src key version, In (src, key, version) (bumps tr) ->
                               get "version" m' = Some (JStr version)).
Proof.
  intros H.
  specialize (H (Disk.World the_host) (disk pluginInfo None) _ pluginInfo _ _ sample_bump
                "./package.json" "version" "1.2.5-develop").
  vm_compute in H. specialize (H (or_introl eq_refl)). discriminate H.
Qed.

(** C9, as the script has it.  A bump that completes writes the manifest
    it leaves, serialised anew; in it released is the time the clock gave
    and version is the derived version, every other field reads as
    before, and the other fields stand in the same order with the same
    values. *)
Theorem bump_touches_version_and_released_only
    (cfg : config) (argv : invocation) {S : Type} (W : world S)
    (m m' : manifest) (s s' : S) (tr : list event) :
  run W (bump_version cfg argv m) s = (Ok m', s', tr) ->
  writes tr = [(pluginInfoPath cfg argv, stringify (JObj m'))]
  /\ (exists now, In (Event UTCString (Ok now)) tr
                  /\ get "released" m' = Some (JStr now))
  /\ (exists v, new_version cfg argv (get "version" m) = Ok v
                /\ get "version" m' = Some (JStr v))
  /\ (forall k, k <> "version" -> k <> "released" -> get k m' = get k m)
  /\ filter untouched m' = filter untouched m.
Proof.
  intros H.
  destruct (bump_version_ok _ _ _ _ _ _ _ _ H)
    as (version & build & now & s1 & s2 & u1 & u2 & D & A1 & -> & A2 & A3 & ->).
  split; [reflexivity|]. split; [|split; [|split]].
  - exists now. split; [left; reflexivity | apply get_set_eq].
  - exists (version +:+ build). split; [apply new_version_of_derive; exact D|].
    apply bumped_version.
  - intros k Hv Hr. unfold bumped. rewrite !get_set_ne by congruence. reflexivity.
  - unfold bumped. rewrite !set_frame; [reflexivity | |]; unfold untouched; simpl; tauto.
Qed.

Lemma bump_touches_version_and_released_only_witness :
  run (Disk.World the_host) (bump_version shipped develop pluginInfo) (disk pluginInfo None)
    = (Ok after_bump, snd (fst bumping), snd bumping)
  /\ writes (snd bumping) = [(pluginInfoPath shipped develop, stringify (JObj after_bump))]
  /\ (exists now, In (Event UTCString (Ok now)) (snd bumping)
                  /\ get "released" after_bump = Some (JStr now))
  /\ (exists v, new_version shipped develop (get "version" pluginInfo) = Ok v
                /\ get "version" after_bump = Some (JStr v))
  /\ (forall k, k <> "version" -> k <> "released" -> get k after_bump = get k pluginInfo)
  /\ filter untouched after_bump = filter untouched pluginInfo.
Proof.
  assert (R : run (Disk.World the_host) (bump_version shipped develop pluginInfo)
                  (disk pluginInfo None)
              = (Ok after_bump, snd (fst bumping), snd bumping))
    by (vm_compute; reflexivity).
  split; [exact R|].
  exact (bump_touches_version_and_released_only shipped develop (Disk.World the_host)
           pluginInfo after_bump (disk pluginInfo None) (snd (fst bumping)) (snd bumping) R).
Defined.

(** C9, as the claim states it, fails: the file is written anew from the
    values held, and a value JSON cannot express is not written as it was
    read.  A field read from 1e999 is held as Infinity and written as
    null, as a field that held null is; so no reading of the written file,
    that of [JSON.parse] included, gives every other field as it was. *)
Lemma nonfinite_field_is_written_as_null :
  ~ (exists read_back : string -> manifest,
       forall (m m' : manifest) (s s' : Disk.state) (tr : list event),
         run (Disk.World the_host) (bump_version shipped develop m) s = (Ok m', s', tr) ->
         forall path data, In (path, data) (writes tr) ->
           forall k, k <> "version" -> k <> "released" ->
                     get k (read_back data) = get k m).
Proof.
  intros [read_back H].
  pose (text := stringify (JObj (bumped nulled "1.2.5-develop+4" (Disk.clock the_host)))).
  assert (I1 : In (pluginInfoPath shipped develop, text)
                  (writes (snd (run (Disk.World the_host)
                                    (bump_version shipped develop unbounded)
                                    (disk pluginInfo None)))))
    by (vm_compute; left; reflexivity).
  assert (I2 : In (pluginInfoPath shipped develop, text)
                  (writes (snd (run (Disk.World the_host)
                                    (bump_version shipped develop nulled)
                                    (disk pluginInfo None)))))
    by (vm_compute; left; reflexivity).
  assert (R1 : forall (x : result manifest * Disk.state * list event),
                 x = (fst (fst x), snd (fst x), snd x))
    by (intros [[? ?] ?]; reflexivity).
  assert (O1 : fst (fst (run (Disk.World the_host) (bump_version shipped develop unbounded)
                             (disk pluginInfo None)))
               = Ok (bumped unbounded "1.2.5-develop+4" (Disk.clock the_host)))
    by (vm_compute; reflexivity).
  assert (O2 : fst (fst (run (Disk.World the_host) (bump_version shipped develop nulled)
                             (disk pluginInfo None)))
               = Ok (bumped nulled "1.2.5-develop+4" (Disk.clock the_host)))
    by (vm_compute; reflexivity).
  pose proof (R1 (run (Disk.World the_host) (bump_version shipped develop unbounded)
                        (disk pluginInfo None))) as U. rewrite O1 in U.
  pose proof (R1 (run (Disk.World the_host) (bump_version shipped develop nulled)
                        (disk pluginInfo None))) as N. rewrite O2 in N.
  pose proof (H _ _ _ _ _ U _ _ I1 "limit" ltac:(discriminate) ltac:(discriminate)) as E1.
  pose proof (H _ _ _ _ _ N _ _ I2 "limit" ltac:(discriminate) ltac:(discriminate)) as E2.
  rewrite E1 in E2. vm_compute in E2. discriminate E2.
Qed.

(** C4, as the script has it.  The manifest is saved by one write of the
    whole pretty-printed text to the manifest's own path.  On the disk
    world: with room for the text the file holds exactly it afterwards;
    with room for [n] bytes only, the write throws and the file is left
    with the first [n] bytes of the new text. *)
Theorem manifest_overwritten_in_place
    (cfg : config) (argv : invocation) (h : Disk.host) (m : manifest)
    (version build : string) (st st' : Disk.state) (r : result manifest)
    (tr : list event) :
  derive_version cfg argv (get "version" m) = Ok (version, build) ->
  run (Disk.World h) (bump_version cfg argv m) st = (r, st', tr) ->
  let m' := bumped m (version +:+ build) (Disk.clock h) in
  let text := stringify (JObj m') in
  writes tr = [(pluginInfoPath cfg argv, text)]
  /\ ((forall n, Disk.room st = Some n -> (String.length text <= n)%nat) ->
      r = Ok m' /\ Disk.files st' !! pluginInfoPath cfg argv = Some text)
  /\ (forall n, Disk.room st = Some n -> (n < String.length text)%nat ->
      r = Throw (SystemError "ENOSPC")
      /\ Disk.files st' !! pluginInfoPath cfg argv = Some (JS.take n text)).
Proof.
  intros D R m' text.
  unfold bump_version in R. unfold_monad. rewrite D in R. simpl in R.
  change (set "released" (JStr (Disk.clock h)) (set "version" (JStr (version +:+ build)) m))
    with m' in R.
  fold text in R. unfold Disk.writeFileSync in R.
  destruct (Disk.room st) as [n|] eqn:Rm.
  - destruct (Nat.leb_spec (String.length text) n) as [Hle|Hlt];
      simpl in R; injection R as <- <- <-; (split; [reflexivity|]); split.
    + intros _. split; [reflexivity | apply lookup_insert_eq].
    + intros n' [= <-] Hn. lia.
    + intros Hn. specialize (Hn n eq_refl). lia.
    + intros n' [= <-] _. split; [reflexivity | apply lookup_insert_eq].
  - simpl in R. injection R as <- <- <-. split; [reflexivity|]. split.
    + intros _. split; [reflexivity | apply lookup_insert_eq].
    + intros n' [=].
Qed.

Lemma manifest_overwritten_in_place_witness :
  derive_version shipped develop (get "version" pluginInfo) = Ok ("1.2.5-develop", "+4")
  /\ run (Disk.World the_host) (bump_version shipped develop pluginInfo)
         (disk pluginInfo (Some 20%nat))
     = (Throw (SystemError "ENOSPC"), snd (fst interrupted), snd interrupted)
  /\ writes (snd interrupted)
     = [(pluginInfoPath shipped develop, stringify (JObj after_bump))]
  /\ Disk.files (snd (fst interrupted)) !! pluginInfoPath shipped develop
     = Some (JS.take 20 (stringify (JObj after_bump))).
Proof.
  assert (D : derive_version shipped develop (get "version" pluginInfo)
              = Ok ("1.2.5-develop", "+4")) by (vm_compute; reflexivity).
  assert (R : run (Disk.World the_host) (bump_version shipped develop pluginInfo)
                  (disk pluginInfo (Some 20%nat))
              = (Throw (SystemError "ENOSPC"), snd (fst interrupted), snd interrupted))
    by (vm_compute; reflexivity).
  destruct (manifest_overwritten_in_place shipped develop the_host pluginInfo
              "1.2.5-develop" "+4" (disk pluginInfo (Some 20%nat))
              (snd (fst interrupted)) _ (snd interrupted) D R) as (Hw & _ & Hfail).
  split; [exact D|]. split; [exact R|]. split; [exact Hw|].
  apply (Hfail 20%nat); [reflexivity | vm_compute; lia].
Defined.

(** C4, as the claim states it, fails: on a disk that takes twenty more
    bytes the write of the sample manifest throws and the file no longer
    holds what it held. *)
Lemma failed_write_loses_manifest :
  ~ (forall (st st' : Disk.state) (m : manifest) (e : exn) (tr : list event),
       run (Disk.World the_host) (bump_version shipped develop m) st = (Throw e, st', tr) ->
       Disk.files st' !! pluginInfoPath shipped develop
       = Disk.files st !! pluginInfoPath shipped develop).
Proof.
  intros H.
  specialize (H (disk pluginInfo (Some 20%nat)) _ pluginInfo _ _ eq_refl).
  vm_compute in H. discriminate H.
Qed.

End BumpFacts.

(** ** Loading the script *)
Module StartupFacts.
Import Json Gulpfile Sample RunFacts.

Lemma differs_spec cfg (title : value) :
  differs cfg title = false <-> title = Some (JStr (pluginTiddler cfg)).
Proof.
  unfold differs. destruct title as [[| | |t| |]|]; try (split; [discriminate|intros [=]]).
  rewrite negb_false_iff, String.eqb_eq.
  split; [intros <-; reflexivity | intros [= <-]; reflexivity].
Qed.

(** C5, as the script has it.  Once plugin.info is read and parsed, a
    title that differs from the configured one makes every run of gulp
    throw the mismatch error with nothing done but that read and that
    parse: no task has run and no file is written.  A title that matches
    lets the preprocessing return the manifest. *)
Theorem sanity_check_precedes_tasks
    (cfg : config) (argv : invocation) {S : Type} (W : world S)
    (s s1 s2 : S) (text : string) (pluginInfo : json) (title : value) :
  answer W (ReadFileSync (pluginInfoPath cfg argv) "utf8") s = (Ok text, s1) ->
  answer W (JSONparse text) s1 = (Ok pluginInfo, s2) ->
  property pluginInfo "title" = Ok title ->
  let loading := [ Event (ReadFileSync (pluginInfoPath cfg argv) "utf8") (Ok text);
                   Event (JSONparse text) (Ok pluginInfo) ] in
  (title <> Some (JStr (pluginTiddler cfg)) ->
     forall names, run W (gulp cfg argv names) s = (Throw mismatch, s2, loading))
  /\ (title = Some (JStr (pluginTiddler cfg)) ->
     exists fields, pluginInfo = JObj fields
                    /\ run W (preprocessing cfg argv) s = (Ok fields, s2, loading))
  /\ writes loading = []
  /\ reads loading = [pluginInfoPath cfg argv].
Proof.
  intros A1 A2 P loading.
  assert (Pre : run W (preprocessing cfg argv) s =
                match (if differs cfg title then Raise mismatch
                       else match pluginInfo with
                            | JObj fields => Ret fields
                            | _ => Raise mismatch
                            end) with
                | Ret fields => (Ok fields, s2, loading)
                | _ => (Throw mismatch, s2, loading)
                end).
  { unfold preprocessing. unfold_monad. simpl. rewrite A1. simpl. rewrite A2.
    rewrite P. simpl.
    destruct (differs cfg title); [reflexivity|].
    destruct pluginInfo; reflexivity. }
  split; [|split; [|split; reflexivity]].
  - intros Hne names. unfold gulp. unfold_monad. rewrite run_bind, Pre.
    destruct (differs cfg title) eqn:D; [reflexivity|].
    apply differs_spec in D. contradiction.
  - intros ->.
    destruct pluginInfo as [| | | | |fields]; simpl in P; try discriminate.
    exists fields. split; [reflexivity|]. rewrite Pre.
    assert (D : differs cfg (Some (JStr (pluginTiddler cfg))) = false)
      by (apply differs_spec; reflexivity).
    rewrite D. reflexivity.
Qed.

Lemma sanity_check_precedes_tasks_witness :
  let path := pluginInfoPath shipped develop in
  let text := stringify (JObj foreign) in
  let s := disk foreign None in
  answer (Disk.World the_host) (ReadFileSync path "utf8") s = (Ok text, s)
  /\ answer (Disk.World the_host) (JSONparse text) s = (Ok (JObj foreign), s)
  /\ property (JObj foreign) "title" = Ok (Some (JStr "$:/plugins/felixhayashi/tiddlymap"))
  /\ run (Disk.World the_host)
         (gulp shipped develop ["bump version"; "bundle the plugin"]) s
     = (Throw mismatch, s,
        [ Event (ReadFileSync path "utf8") (Ok text);
          Event (JSONparse text) (Ok (JObj foreign)) ]).
Proof.
  intros path text s.
  assert (A1 : answer (Disk.World the_host) (ReadFileSync path "utf8") s = (Ok text, s))
    by (vm_compute; reflexivity).
  assert (A2 : answer (Disk.World the_host) (JSONparse text) s = (Ok (JObj foreign), s))
    by (vm_compute; reflexivity).
  assert (P : property (JObj foreign) "title"
              = Ok (Some (JStr "$:/plugins/felixhayashi/tiddlymap")))
    by reflexivity.
  destruct (sanity_check_precedes_tasks shipped develop (Disk.World the_host)
              s s s text (JObj foreign) _ A1 A2 P) as (Hdiff & _).
  split; [exact A1|]. split; [exact A2|]. split; [exact P|].
  apply Hdiff. discriminate.
Defined.

(** C5, as the claim states it, fails: the mismatch error of the sample
    run comes after a file has been read, plugin.info itself. *)
Lemma sanity_check_reads_manifest_first :
  ~ (forall (W : world Disk.state) (s s' : Disk.state) (names : list string)
            (tr : list event),
       run W (gulp shipped develop names) s = (Throw mismatch, s', tr) ->
       reads tr = [] /\ writes tr = []).
Proof.
  intros H.
  destruct (H (Disk.World the_host) (disk foreign None) _ ["default"] _ eq_refl) as [Hr _].
  vm_compute in Hr. discriminate Hr.
Qed.

End StartupFacts.

(** ** The bundle task *)
Module BundleFacts.
Import Json Gulpfile Sample JS Path StringFacts SemVerFacts VersionFacts BumpFacts PathFacts.

Section Bundle.
Context (cfg : config) (argv : invocation).
Context {S : Type} (W : world S).

(** Every run of the bundle task, complete or cut short by a failing
    call: it writes nothing and does not complete, or it writes once,
    the one-element array of the plugin the wiki loaded, to the
    artifact path. *)
Lemma bundle_writes (m : manifest) (s s' : S) (r : result unit) (tr : list event) :
  run W (bundle_the_plugin cfg argv m) s = (r, s', tr) ->
  (writes tr = [] /\ r <> Ok tt)
  \/ exists plugin,
       In (Event (LoadPluginFolder (dist_folder cfg argv)) (Ok plugin)) tr
       /\ writes tr = [(artifact cfg argv m, stringify (JArr [plugin]))].
Proof.
  unfold bundle_the_plugin. unfold_monad. simpl.
  repeat first
    [ next_answer W
    | match goal with
      | b : bool |- _ => destruct b; simpl
      end ];
  intros H; injection H as <- <- <-;
  first [ left; split; [reflexivity | discriminate]
        | right; eexists; split; [simpl; right; left; reflexivity | reflexivity] ].
Qed.

End Bundle.








(** C6, as the script has it.  Whatever a run of the bundle task writes
    is the JSON text of an array whose only element is the value the wiki
    returned for the plugin folder, hence an opening bracket, that value
    and a closing bracket; a run that completes writes exactly one such
    file.  The value is the plugin record when the folder holds a plugin;
    nothing makes it an object. *)
Theorem bundle_is_array_of_one
    (cfg : config) (argv : invocation) {S : Type} (W : world S)
    (m : manifest) (s s' : S) (r : result unit) (tr : list event) :
  run W (bundle_the_plugin cfg argv m) s = (r, s', tr) ->
  (forall path data, In (path, data) (writes tr) ->
     exists plugin,
       In (Event (LoadPluginFolder (Path.resolve (cwd argv) ["./dist/"; pluginNamespace cfg]))
                 (Ok plugin)) tr
       /\ data = stringify (JArr [plugin])
       /\ data = "[" +:+ newline +:+ "  " +:+ serialize "  " plugin +:+ newline +:+ "]")
  /\ (r = Ok tt -> exists path data, writes tr = [(path, data)]).
Proof.
  intros R.
  destruct (bundle_writes cfg argv W m s s' r tr R) as [[Hw Hr]|(plugin & Hl & Hw)];
    rewrite Hw.
  - split; [intros path data []|]. intros ->. contradiction.
  - split.
    + intros path data [[= _ <-]|[]]. exists plugin. repeat split. exact Hl.
    + intros _. eexists _, _. reflexivity.
Qed.

Lemma bundle_is_array_of_one_witness :
  run (Disk.World the_host) (bundle_the_plugin shipped develop after_bump)
      (snd (fst bumping))
    = (Ok tt, snd (fst bundling), snd bundling)
  /\ (forall path data, In (path, data) (writes (snd bundling)) ->
        exists plugin,
          In (Event (LoadPluginFolder
                       (Path.resolve (cwd develop) ["./dist/"; pluginNamespace shipped]))
                    (Ok plugin)) (snd bundling)
          /\ data = stringify (JArr [plugin])
          /\ data = "[" +:+ newline +:+ "  " +:+ serialize "  " plugin +:+ newline +:+ "]")
  /\ (Ok tt = Ok tt -> exists path data, writes (snd bundling) = [(path, data)]).
Proof.
  assert (R : run (Disk.World the_host) (bundle_the_plugin shipped develop after_bump)
                  (snd (fst bumping))
              = (Ok tt, snd (fst bundling), snd bundling))
    by (vm_compute; reflexivity).
  split; [exact R|].
  exact (bundle_is_array_of_one shipped develop (Disk.World the_host) after_bump
           (snd (fst bumping)) (snd (fst bundling)) (Ok tt) (snd bundling) R).
Defined.

(** C6, as the claim states it, fails: when the dist folder holds no
    plugin the wiki returns [null], the task goes on, and the array it
    writes holds [null], not an object. *)
Lemma bundle_of_missing_plugin_holds_null :
  ~ (forall (W : world Disk.state) (s s' : Disk.state) (m : manifest) (r : result unit)
            (tr : list event),
       run W (bundle_the_plugin shipped develop m) s = (r, s', tr) ->
       forall path data, In (path, data) (writes tr) ->
         exists fields, data = stringify (JArr [JObj fields])).
Proof.
  intros H.
  destruct (H (Disk.World no_plugin) (disk pluginInfo None) _ after_bump _ _ eq_refl
              (artifact shipped develop after_bump) (stringify (JArr [JNull])))
    as [fields E].
  - vm_compute. left. reflexivity.
  - destruct fields; vm_compute in E; discriminate E.
Qed.




End BundleFacts.

(** ** Printing and reading back decimal numerals *)
Module PrintFacts.
Import JS SemVer StringFacts SemVerFacts.

Lemma digit_value_digit c : is_digit c = true -> digit_value c = Some (code c - 48).
Proof. unfold digit_value. intros ->. reflexivity. Qed.

Lemma digit_range c : is_digit c = true -> 0 <= code c - 48 < 10.
Proof. unfold is_digit. intros H. apply andb_true_iff in H as [H1 H2]. lia. Qed.

Lemma leading_digits_all s :
  forall_chars is_digit s = true ->
  leading_digits 10 s = map (fun c => code c - 48) (list_ascii_of_string s).
Proof.
  induction s as [|c s IH]; simpl; [reflexivity|].
  intros H. apply andb_true_iff in H as [Hc Hs].
  rewrite (digit_value_digit _ Hc).
  destruct (Z.ltb_spec (code c - 48) 10) as [_|Hge];
    [|pose proof (digit_range _ Hc); lia].
  rewrite (IH Hs). reflexivity.
Qed.

Lemma digits_value_acc ds acc :
  fold_left (fun a d => a * 10 + d) ds acc
  = acc * 10 ^ Z.of_nat (List.length ds) + fold_left (fun a d => a * 10 + d) ds 0.
Proof.
  revert acc. induction ds as [|d ds IH]; intros acc.
  - simpl. lia.
  - cbn [fold_left List.length]. rewrite (IH (acc * 10 + d)), (IH (0 * 10 + d)).
    rewrite Nat2Z.inj_succ, Z.pow_succ_r by lia. lia.
Qed.

Lemma decimal_cons c s :
  is_digit c = true -> forall_chars is_digit s = true ->
  decimal (String c s) = (code c - 48) * 10 ^ Z.of_nat (String.length s) + decimal s.
Proof.
  intros Hc Hs. unfold decimal, digits_value.
  rewrite (leading_digits_all (String c s)) by (simpl; rewrite Hc, Hs; reflexivity).
  rewrite (leading_digits_all s Hs). cbn [list_ascii_of_string map fold_left].
  rewrite digits_value_acc. rewrite length_map.
  replace (List.length (list_ascii_of_string s)) with (String.length s); [lia|].
  clear. induction s; simpl; congruence.
Qed.

Lemma pretty_N_char_code k : (k < 10)%N -> code (pretty_N_char k) - 48 = Z.of_N k.
Proof.
  intros Hk.
  assert (k = 0 \/ k = 1 \/ k = 2 \/ k = 3 \/ k = 4 \/ k = 5 \/ k = 6 \/ k = 7
          \/ k = 8 \/ k = 9)%N as H by lia.
  repeat (destruct H as [->|H]; [reflexivity|]). subst. reflexivity.
Qed.

Lemma decimal_pretty_N_go x s :
  forall_chars is_digit s = true ->
  decimal (pretty_N_go x s) = Z.of_N x * 10 ^ Z.of_nat (String.length s) + decimal s.
Proof.
  revert s. induction (N.lt_wf_0 x) as [x _ IH]. intros s Hs.
  destruct (N.eq_dec x 0%N) as [->|Hx].
  - rewrite pretty_N_go_0. lia.
  - rewrite pretty_N_go_step by lia.
    assert (Hd : is_digit (pretty_N_char (x `mod` 10)) = true)
      by apply pretty_N_char_digit.
    rewrite IH; [|apply N.div_lt; lia|simpl; rewrite Hd, Hs; reflexivity].
    rewrite (decimal_cons _ _ Hd Hs).
    rewrite pretty_N_char_code by (apply N.mod_lt; lia).
    cbn [String.length]. rewrite Nat2Z.inj_succ, Z.pow_succ_r by lia.
    rewrite (N.div_mod x 10) at 3 by lia. rewrite N2Z.inj_add, N2Z.inj_mul.
    change (Z.of_N 10) with 10. ring.
Qed.

(** Reading back a printed number. *)
Lemma decimal_pretty (z : Z) : 0 <= z -> decimal (pretty z) = z.
Proof.
  destruct z as [|p|p]; intros Hz; [reflexivity| |lia].
  unfold pretty, pretty_Z, pretty, pretty_positive, pretty, pretty_N.
  case_decide; [discriminate|].
  rewrite decimal_pretty_N_go by reflexivity. simpl String.length.
  change (decimal "") with 0. simpl. lia.
Qed.
End PrintFacts.

(** ** Numerals as version identifiers *)
Module NumeralFacts.
Import JS SemVer Render StringFacts SemVerFacts PrintFacts.

Lemma pretty_N_char_nonzero k :
  (0 < k < 10)%N -> Ascii.eqb (pretty_N_char k) "0" = false.
Proof.
  intros Hk.
  assert (k = 1 \/ k = 2 \/ k = 3 \/ k = 4 \/ k = 5 \/ k = 6 \/ k = 7
          \/ k = 8 \/ k = 9)%N as H by lia.
  repeat (destruct H as [->|H]; [reflexivity|]). subst. reflexivity.
Qed.

(** A positive number prints with a leading digit other than zero. *)
Lemma pretty_N_go_head x s :
  (0 < x)%N ->
  exists c r, pretty_N_go x s = String c r
              /\ is_digit c = true /\ Ascii.eqb c "0" = false.
Proof.
  revert s. induction (N.lt_wf_0 x) as [x _ IH]. intros s Hx.
  rewrite pretty_N_go_step by exact Hx.
  destruct (N.eq_dec (N.div x 10) 0%N) as [E|E].
  - rewrite E, pretty_N_go_0. eexists _, _. split; [reflexivity|].
    split; [apply pretty_N_char_digit|].
    assert (Hs : (x < 10)%N).
    { assert (T : (10 <> 0)%N) by discriminate.
      pose proof (N.div_mod x 10 T) as Hd.
      pose proof (N.mod_lt x 10 T) as Hm. rewrite E in Hd. lia. }
    apply pretty_N_char_nonzero. rewrite N.mod_small by exact Hs. lia.
  - apply IH; [apply N.div_lt; lia | apply N.neq_0_lt_0; exact E].
Qed.

Lemma numeric_identifier_head c r :
  Ascii.eqb c "0" = false ->
  numeric_identifier (String c r) = is_digit c && negb (Ascii.eqb c "0") && forall_chars is_digit r.
Proof.
  intros H. destruct c as [[] [] [] [] [] [] [] []]; try reflexivity. discriminate H.
Qed.

Lemma pretty_numeric (z : Z) : 0 <= z -> numeric_identifier (pretty z) = true.
Proof.
  destruct z as [|p|p]; intros Hz; [reflexivity| |lia].
  pose proof (pretty_digits (Z.pos p) Hz) as D.
  unfold pretty, pretty_Z, pretty, pretty_positive, pretty, pretty_N in *.
  case_decide; [discriminate|].
  destruct (pretty_N_go_head (N.pos p) "" ltac:(lia)) as (c & r & E & Hc & H0).
  rewrite E in *. rewrite (numeric_identifier_head _ _ H0), Hc, H0.
  simpl in D. rewrite Hc in D. exact D.
Qed.

Lemma pretty_N_go_length k x s :
  (x < 10 ^ N.of_nat k)%N ->
  (String.length (pretty_N_go x s) <= k + String.length s)%nat.
Proof.
  revert x s. induction k as [|k IH]; intros x s Hx.
  - assert (x = 0%N) as -> by (simpl in Hx; lia). rewrite pretty_N_go_0. lia.
  - destruct (N.eq_dec x 0%N) as [->|Hne]; [rewrite pretty_N_go_0; lia|].
    rewrite pretty_N_go_step by lia.
    etransitivity; [apply IH|simpl; lia].
    rewrite Nat2N.inj_succ, N.pow_succ_r' in Hx.
    apply N.Div0.div_lt_upper_bound. lia.
Qed.

(** A safe integer prints on at most sixteen digits, its sign apart. *)
Lemma pretty_length (z : Z) :
  - MAX_SAFE_INTEGER - 1 <= z <= MAX_SAFE_INTEGER + 1 ->
  (1 <= String.length (pretty z) <= 17)%nat.
Proof.
  assert (P : forall p, Z.pos p <= MAX_SAFE_INTEGER + 1 ->
              (1 <= String.length (pretty (N.pos p)) <= 16)%nat).
  { intros p Hp. unfold pretty, pretty_N. case_decide; [discriminate|]. split.
    - destruct (pretty_N_go_head (N.pos p) "" ltac:(lia)) as (c & r & -> & _).
      simpl. lia.
    - pose proof (pretty_N_go_length 16 (N.pos p) "") as L. simpl String.length in L.
      rewrite Nat.add_0_r in L. apply L. unfold MAX_SAFE_INTEGER in Hp.
      change (10 ^ N.of_nat 16)%N with 10000000000000000%N. lia. }
  unfold MAX_SAFE_INTEGER in *. destruct z as [|p|p]; intros Hz.
  - simpl. lia.
  - specialize (P p ltac:(unfold MAX_SAFE_INTEGER; lia)).
    change (pretty (Z.pos p)) with (pretty (N.pos p)). lia.
  - specialize (P p ltac:(unfold MAX_SAFE_INTEGER; lia)).
    change (pretty (Z.neg p)) with ("-" +:+ pretty (N.pos p)).
    rewrite append_length. simpl. lia.
Qed.

(** Safe characters are no white space: [trim] leaves a text made of them
    as it is. *)
Lemma leading_space_safe c r : safe c = true -> leading_space (String c r) = None.
Proof.
  intros H. destruct c as [[] [] [] [] [] [] [] []]; try discriminate H; reflexivity.
Qed.

Lemma trim_start_safe c r : safe c = true -> trim_start (String c r) = String c r.
Proof. intros H. simpl. rewrite (leading_space_safe _ _ H). reflexivity. Qed.

Lemma trim_end_safe s : forall_chars safe s = true -> trim_end s = s.
Proof.
  induction s as [|c s IH]; [reflexivity|].
  intros H. simpl in H. apply andb_true_iff in H as [Hc Hs].
  cbn [trim_end]. unfold is_blank. rewrite (trim_start_safe _ _ Hc), (IH Hs). reflexivity.
Qed.

Lemma trim_safe s : forall_chars safe s = true -> trim s = s.
Proof.
  intros H. unfold trim. destruct s as [|c s]; [reflexivity|].
  pose proof H as H'. simpl in H'. apply andb_true_iff in H' as [Hc _].
  rewrite (trim_start_safe _ _ Hc). apply trim_end_safe. exact H.
Qed.

Lemma utf16_length_safe s :
  forall_chars safe s = true -> utf16_length s = Z.of_nat (String.length s).
Proof.
  induction s as [|c s IH]; [reflexivity|].
  intros H. simpl in H. apply andb_true_iff in H as [Hc Hs].
  cbn [utf16_length String.length]. rewrite (IH Hs), Nat2Z.inj_succ.
  unfold safe in Hc. apply andb_true_iff in Hc as [H1 H2].
  destruct (Z.ltb_spec (code c) 128); [|lia].
  destruct (Z.leb_spec 240 (code c)); [lia|]. simpl. lia.
Qed.
End NumeralFacts.

(** ** The strict parser reads back a rendered version *)
Module ParseFacts.
Import JS SemVer Render StringFacts SemVerFacts PathFacts PrintFacts NumeralFacts.

Lemma forallb_impl {A} (p q : A -> bool) l :
  (forall x, p x = true -> q x = true) -> forallb p l = true -> forallb q l = true.
Proof.
  intros H. induction l as [|x l IH]; simpl; [reflexivity|].
  rewrite !andb_true_iff. intros [Hx Hl]. auto.
Qed.

(** When every piece of a split text passes a test on characters, the
    text is made of such characters and separators. *)
Lemma split_forall sep q s :
  forallb (forall_chars q) (split sep s) = true ->
  forall_chars (fun c => q c || Ascii.eqb c sep) s = true.
Proof.
  induction s as [|c s IH]; [reflexivity|].
  simpl. destruct (Ascii.eqb c sep) eqn:E.
  - simpl. intros H. rewrite orb_true_r. simpl. exact (IH H).
  - destruct (split sep s) as [|h t] eqn:Es; [exfalso; exact (split_nonempty _ _ Es)|].
    simpl. rewrite !andb_true_iff. intros [[Hc Hh] Ht].
    rewrite Hc. simpl. split; [reflexivity|]. apply IH. simpl. rewrite Hh, Ht. reflexivity.
Qed.

Lemma ident_or_dot_safe c :
  is_ident_char c || Ascii.eqb c "." = true ->
  safe c = true /\ negb (Ascii.eqb c "+") = true.
Proof.
  intros H. destruct c as [[] [] [] [] [] [] [] []]; try discriminate H; split; reflexivity.
Qed.

Lemma core_char_safe c :
  is_core_char c = true ->
  safe c = true /\ negb (Ascii.eqb c "+") = true /\ negb (Ascii.eqb c "-") = true.
Proof.
  intros H. destruct c as [[] [] [] [] [] [] [] []]; try discriminate H;
    repeat split; reflexivity.
Qed.

Lemma valid_prerelease_chars p :
  valid_prerelease p = true ->
  forall_chars (fun c => is_ident_char c || Ascii.eqb c ".") p = true.
Proof.
  intros H. apply split_forall. revert H. apply forallb_impl.
  intros x Hx. unfold prerelease_identifier in Hx.
  apply andb_true_iff in Hx as [Hx _]. apply andb_true_iff in Hx as [_ Hx]. exact Hx.
Qed.

Lemma valid_build_chars b :
  valid_build b = true ->
  forall_chars (fun c => is_ident_char c || Ascii.eqb c ".") b = true.
Proof.
  intros H. apply split_forall. revert H. apply forallb_impl.
  intros x Hx. unfold build_identifier in Hx.
  apply andb_true_iff in Hx as [_ Hx]. exact Hx.
Qed.

Lemma marked_safe mark part :
  safe mark = true ->
  (forall x, part = Some x ->
             forall_chars (fun c => is_ident_char c || Ascii.eqb c ".") x = true) ->
  forall_chars safe (marked (String mark "") part) = true.
Proof.
  intros Hm H. destruct part as [x|]; [|reflexivity].
  change (marked (String mark "") (Some x)) with (String mark x).
  simpl. rewrite Hm. simpl. apply (forall_chars_impl _ _ _ (fun c Hc => proj1 (ident_or_dot_safe c Hc))).
  apply H. reflexivity.
Qed.

Lemma core_is_core M m p :
  0 <= M -> 0 <= m -> 0 <= p -> forall_chars is_core_char (core M m p) = true.
Proof. intros. unfold core. apply core_chars; assumption. Qed.

Lemma split_core M m p :
  0 <= M -> 0 <= m -> 0 <= p -> split "." (core M m p) = [pretty M; pretty m; pretty p].
Proof.
  intros HM Hm Hp.
  assert (D : forall z, 0 <= z -> split "." (pretty z) = [pretty z]).
  { intros z Hz. apply split_plain. apply (forall_chars_impl is_digit); [|apply pretty_digits; exact Hz].
    intros c Hc. destruct c as [[] [] [] [] [] [] [] []]; try discriminate Hc; reflexivity. }
  unfold core.
  change (pretty M +:+ "." +:+ pretty m +:+ "." +:+ pretty p)
    with (pretty M +:+ String "." (pretty m +:+ String "." (pretty p))).
  rewrite !split_app, !D by assumption. reflexivity.
Qed.

Lemma strip_v (s : string) :
  head_is_digit s = true ->
  match s with String "v" r => r | _ => s end = s.
Proof.
  destruct s as [|c r]; [reflexivity|]. simpl. intros H.
  destruct c as [[] [] [] [] [] [] [] []]; try discriminate H; reflexivity.
Qed.

Lemma head_app a b : head_is_digit a = true -> head_is_digit (a +:+ b) = true.
Proof. destruct a as [|c a]; [discriminate|]. intros H. exact H. Qed.

Lemma pretty_head z : 0 <= z -> head_is_digit (pretty z) = true.
Proof.
  destruct z as [|q|q]; intros Hz; [reflexivity| |lia].
  unfold pretty, pretty_Z, pretty, pretty_positive, pretty, pretty_N.
  case_decide; [discriminate|].
  destruct (pretty_N_go_head (N.pos q) "" ltac:(lia)) as (c & r & -> & Hc & _).
  exact Hc.
Qed.

Lemma cut_marked (mark : ascii) a part :
  forall_chars (fun c => negb (Ascii.eqb c mark)) a = true ->
  cut mark (a +:+ marked (String mark "") part) = (a, part).
Proof.
  intros Ha. rewrite cut_app by exact Ha. destruct part as [x|].
  - change (marked (String mark "") (Some x)) with (String mark x).
    simpl. rewrite Ascii.eqb_refl. simpl. rewrite append_empty. reflexivity.
  - simpl. rewrite append_empty. reflexivity.
Qed.

(** The strict parser reads a rendered version back. *)
Lemma new_render M m p pre bld :
  0 <= M <= MAX_SAFE_INTEGER -> 0 <= m <= MAX_SAFE_INTEGER -> 0 <= p <= MAX_SAFE_INTEGER ->
  (forall x, pre = Some x -> valid_prerelease x = true) ->
  (forall x, bld = Some x -> valid_build x = true) ->
  (String.length (render M m p pre bld) <= 256)%nat ->
  new (Some (Json.JStr (render M m p pre bld))) = Ok (parsed M m p pre bld).
Proof.
  intros HM Hm Hp Hpre Hbld Hlen.
  assert (C : forall_chars is_core_char (core M m p) = true) by (apply core_is_core; lia).
  assert (Cs : forall_chars safe (core M m p) = true)
    by (exact (forall_chars_impl _ _ _ (fun c Hc => proj1 (core_char_safe c Hc)) C)).
  assert (Cp : forall_chars (fun c => negb (Ascii.eqb c "+")) (core M m p) = true)
    by (exact (forall_chars_impl _ _ _ (fun c Hc => proj1 (proj2 (core_char_safe c Hc))) C)).
  assert (Cm : forall_chars (fun c => negb (Ascii.eqb c "-")) (core M m p) = true)
    by (exact (forall_chars_impl _ _ _ (fun c Hc => proj2 (proj2 (core_char_safe c Hc))) C)).
  assert (Pc : forall x, pre = Some x ->
               forall_chars (fun c => is_ident_char c || Ascii.eqb c ".") x = true)
    by (intros x Hx; apply valid_prerelease_chars, Hpre, Hx).
  assert (Bc : forall x, bld = Some x ->
               forall_chars (fun c => is_ident_char c || Ascii.eqb c ".") x = true)
    by (intros x Hx; apply valid_build_chars, Hbld, Hx).
  assert (S : forall_chars safe (render M m p pre bld) = true).
  { unfold render. rewrite !forall_chars_app, Cs.
    rewrite (marked_safe "-" pre eq_refl Pc), (marked_safe "+" bld eq_refl Bc). reflexivity. }
  assert (Pp : forall_chars (fun c => negb (Ascii.eqb c "+")) (core M m p +:+ marked "-" pre) = true).
  { rewrite forall_chars_app, Cp. destruct pre as [x|]; [|reflexivity].
    change (marked "-" (Some x)) with (String "-" x). simpl.
    exact (forall_chars_impl _ _ _ (fun c Hc => proj2 (ident_or_dot_safe c Hc)) (Pc x eq_refl)). }
  assert (F : match_full (render M m p pre bld) = Some (pretty M, pretty m, pretty p, pre, bld)).
  { unfold match_full. rewrite strip_v
      by (unfold render, core; do 2 apply head_app; apply pretty_head; lia).
    unfold render. rewrite <- append_assoc.
    rewrite (cut_marked "+" _ bld Pp), (cut_marked "-" _ pre Cm).
    rewrite split_core by lia. rewrite !pretty_numeric by lia.
    assert (Vp : optional (fun x => forallb prerelease_identifier (split "." x)) pre = true)
      by (destruct pre as [x|]; [exact (Hpre x eq_refl) | reflexivity]).
    assert (Vb : optional (fun x => forallb build_identifier (split "." x)) bld = true)
      by (destruct bld as [x|]; [exact (Hbld x eq_refl) | reflexivity]).
    rewrite Vp, Vb. reflexivity. }
  unfold new. rewrite (utf16_length_safe _ S), (trim_safe _ S), F.
  destruct (Z.ltb_spec MAX_LENGTH (Z.of_nat (String.length (render M m p pre bld))));
    [unfold MAX_LENGTH in *; lia|].
  rewrite !decimal_pretty by lia.
  destruct (Z.ltb_spec MAX_SAFE_INTEGER M); [lia|].
  destruct (Z.ltb_spec MAX_SAFE_INTEGER m); [lia|].
  destruct (Z.ltb_spec MAX_SAFE_INTEGER p); [lia|].
  reflexivity.
Qed.
End ParseFacts.

(** ** The version a bump assigns *)
Module RebumpFacts.
Import Json JS SemVer Render Gulpfile StringFacts SemVerFacts PathFacts VersionFacts.
Import PrintFacts NumeralFacts ParseFacts.

Lemma new_bounds current v :
  new current = Ok v ->
  0 <= major v <= MAX_SAFE_INTEGER /\ 0 <= minor v <= MAX_SAFE_INTEGER
  /\ 0 <= patch v <= MAX_SAFE_INTEGER.
Proof.
  intros H. destruct (new_nonneg _ _ H) as (P1 & P2 & P3). revert H.
  unfold new. destruct current as [[| | |s| |]|]; try discriminate.
  destruct (MAX_LENGTH <? utf16_length s); [discriminate|].
  destruct (match_full (trim s)) as [[[[[ma mi] pa] pre] bld]|]; [|discriminate].
  destruct (Z.ltb_spec MAX_SAFE_INTEGER (decimal ma)); [discriminate|].
  destruct (Z.ltb_spec MAX_SAFE_INTEGER (decimal mi)); [discriminate|].
  destruct (Z.ltb_spec MAX_SAFE_INTEGER (decimal pa)); [discriminate|].
  intros [= <-]. simpl in *. lia.
Qed.

Lemma mode_label_marked argv : mode_label argv = marked "-" (label_of_mode argv).
Proof.
  unfold mode_label, label_of_mode. destruct (mode argv) as [m|]; [|reflexivity].
  destruct (nonempty m && negb (String.eqb m "master")); reflexivity.
Qed.

Lemma base_version_render argv v :
  base_version argv v
  = core (major v) (minor v) (patch v) +:+ marked "-" (label_of_mode argv).
Proof. rewrite base_version_core, mode_label_marked. reflexivity. Qed.

Lemma parseInt_range s k : parseInt s = Int k -> - MAX_SAFE_INTEGER <= k <= MAX_SAFE_INTEGER.
Proof.
  unfold parseInt.
  destruct (match trim_start s with
            | String "-" r => (-1, r) | String "+" r => (1, r) | _ => (1, trim_start s)
            end) as [sign s1].
  destruct (match s1 with
            | String "0" (String "x" r) => (16, r) | String "0" (String "X" r) => (16, r)
            | _ => (10, s1)
            end) as [R s2].
  destruct (leading_digits R s2) as [|d ds]; [discriminate|].
  unfold of_integer.
  destruct (Z.leb_spec (- MAX_SAFE_INTEGER) (sign * digits_value R (d :: ds)));
    destruct (Z.leb_spec (sign * digits_value R (d :: ds)) MAX_SAFE_INTEGER);
    simpl; try discriminate.
  intros [= <-]. lia.
Qed.

Lemma pretty_length_nonneg (z : Z) :
  0 <= z <= MAX_SAFE_INTEGER -> (1 <= String.length (pretty z) <= 16)%nat.
Proof.
  intros Hz. destruct z as [|q|q]; [simpl; lia| |lia].
  assert (R : - MAX_SAFE_INTEGER - 1 <= Z.neg q <= MAX_SAFE_INTEGER + 1)
    by (pose proof (Pos2Z.opp_pos q); unfold MAX_SAFE_INTEGER in *; lia).
  pose proof (pretty_length (Z.neg q) R) as L.
  change (pretty (Z.neg q)) with ("-" +:+ pretty (Z.pos q)) in L.
  rewrite append_length in L. simpl in L.
  pose proof (pretty_length (Z.pos q) ltac:(unfold MAX_SAFE_INTEGER in *; lia)) as L'.
  lia.
Qed.

Lemma pretty_ident (z : Z) : forall_chars is_ident_char (pretty z) = true.
Proof.
  assert (D : forall q, forall_chars is_ident_char (pretty (Z.pos q)) = true).
  { intros q. apply (forall_chars_impl is_digit); [|apply pretty_digits; lia].
    intros c Hc. unfold is_ident_char. rewrite Hc. reflexivity. }
  destruct z as [|q|q]; [reflexivity|apply D|].
  change (pretty (Z.neg q)) with ("-" +:+ pretty (Z.pos q)).
  rewrite forall_chars_app, D. reflexivity.
Qed.

Lemma plain_build n :
  nonempty n = true -> forall_chars is_ident_char n = true ->
  split "." n = [n] /\ valid_build n = true.
Proof.
  intros Hn Hc.
  assert (Sp : split "." n = [n]).
  { apply split_plain. revert Hc. apply forall_chars_impl.
    intros c H. destruct c as [[] [] [] [] [] [] [] []]; try discriminate H; reflexivity. }
  split; [exact Sp|]. unfold valid_build. rewrite Sp. simpl.
  unfold build_identifier. rewrite Hn, Hc. reflexivity.
Qed.

Lemma pretty_nonempty (z : Z) :
  - MAX_SAFE_INTEGER - 1 <= z <= MAX_SAFE_INTEGER + 1 -> nonempty (pretty z) = true.
Proof.
  intros Hz. pose proof (pretty_length z Hz) as L.
  destruct (pretty z); [simpl in L; lia | reflexivity].
Qed.

(** The text the build counter prints as, when the suffix is computed. *)
Lemma counter_text v n :
  number_to_string (succ (parseInt (first_build (build v)))) = Ok n ->
  (n = "NaN" /\ parseInt (first_build (build v)) = NaN)
  \/ (exists k, parseInt (first_build (build v)) = Int k /\ n = pretty (k + 1)
                /\ - MAX_SAFE_INTEGER <= k <= MAX_SAFE_INTEGER).
Proof.
  destruct (parseInt (first_build (build v))) as [|k|] eqn:E; simpl; try discriminate.
  - intros [= <-]. left. split; reflexivity.
  - intros [= <-]. right. exists k. repeat split; apply (parseInt_range _ _ E).
Qed.

Lemma counter_build v n :
  number_to_string (succ (parseInt (first_build (build v)))) = Ok n ->
  split "." n = [n] /\ valid_build n = true /\ (1 <= String.length n <= 17)%nat.
Proof.
  intros H. destruct (counter_text v n H) as [[-> _]|(k & _ & -> & Hk)].
  - repeat split; simpl; lia.
  - destruct (plain_build (pretty (k + 1))) as [Sp V];
      [apply pretty_nonempty; lia | apply pretty_ident|].
    split; [exact Sp|]. split; [exact V|]. apply pretty_length. lia.
Qed.

Lemma new_version_render cfg argv current v next :
  new current = Ok v ->
  new_version cfg argv current = Ok next ->
  exists bld,
    next = render (major v) (minor v) (patch v) (label_of_mode argv) bld
    /\ (isIncrBuild cfg = false -> bld = None)
    /\ (isIncrBuild cfg = true ->
        exists n, bld = Some n
                  /\ number_to_string (succ (parseInt (first_build (build v)))) = Ok n).
Proof.
  intros Hv Hn.
  destruct (derive_of_new_version _ _ _ _ Hn) as (version & b & D & ->).
  destruct (derive_version_shape _ _ _ _ _ D) as (v' & Hv' & -> & B).
  rewrite Hv in Hv'. injection Hv' as <-.
  rewrite base_version_render. unfold build_suffix in B. unfold_monad.
  destruct (isIncrBuild cfg).
  - destruct (number_to_string _) as [n|e|] eqn:E; simpl in B; try discriminate.
    injection B as <-. exists (Some n). unfold render. rewrite append_assoc.
    split; [reflexivity|]. split; [discriminate|]. intros _. exists n. split; reflexivity.
  - injection B as <-. exists None. unfold render. rewrite append_assoc.
    split; [reflexivity|]. split; [reflexivity | discriminate].
Qed.

Lemma label_ok_spec argv :
  label_ok argv = true ->
  (forall x, label_of_mode argv = Some x -> valid_prerelease x = true)
  /\ (String.length (marked "-" (label_of_mode argv)) <= 188)%nat.
Proof.
  unfold label_ok. destruct (label_of_mode argv) as [m|].
  - intros H. apply andb_true_iff in H as [Hv Hl]. apply Nat.leb_le in Hl.
    split; [intros x [= <-]; exact Hv|].
    change (marked "-" (Some m)) with (String "-" m). simpl. lia.
  - intros _. split; [discriminate | simpl; lia].
Qed.

Lemma core_length M m p :
  0 <= M <= MAX_SAFE_INTEGER -> 0 <= m <= MAX_SAFE_INTEGER -> 0 <= p <= MAX_SAFE_INTEGER ->
  (String.length (core M m p) <= 50)%nat.
Proof.
  intros HM Hm Hp. unfold core. rewrite !append_length. simpl.
  pose proof (pretty_length_nonneg M HM). pose proof (pretty_length_nonneg m Hm).
  pose proof (pretty_length_nonneg p Hp). lia.
Qed.

(** The text a bump assigns is the rendering of the current numbers, the
    label of the mode and the new counter, and the parser reads it back as
    such. *)
Lemma new_version_reparses
    (cfg : config) (argv : invocation) (current : value) (v : SemVer.t) (next : string) :
  new current = Ok v ->
  label_ok argv = true ->
  new_version cfg argv current = Ok next ->
  exists bld,
    new (Some (JStr next))
      = Ok (parsed (major v) (minor v) (patch v) (label_of_mode argv) bld)
    /\ next = render (major v) (minor v) (patch v) (label_of_mode argv) bld
    /\ (isIncrBuild cfg = false -> bld = None)
    /\ (isIncrBuild cfg = true ->
        exists n, bld = Some n
                  /\ number_to_string (succ (parseInt (first_build (build v)))) = Ok n).
Proof.
  intros Hv Hl Hn.
  destruct (new_version_render _ _ _ _ _ Hv Hn) as (bld & -> & Hoff & Hon).
  destruct (new_bounds _ _ Hv) as (BM & Bm & Bp).
  destruct (label_ok_spec _ Hl) as [Vl Ll].
  exists bld. split; [|repeat split; assumption].
  assert (Hb : (forall x, bld = Some x -> valid_build x = true)
               /\ (String.length (marked "+" bld) <= 18)%nat).
  { destruct (isIncrBuild cfg).
    - destruct (Hon eq_refl) as (n & -> & Hs).
      destruct (counter_build v n Hs) as (_ & V & L).
      split; [intros x [= <-]; exact V|].
      change (marked "+" (Some n)) with (String "+" n). simpl. lia.
    - rewrite (Hoff eq_refl). split; [discriminate | simpl; lia]. }
  destruct Hb as [Vb Lb].
  apply new_render; try assumption.
  unfold render. rewrite !append_length.
  pose proof (core_length _ _ _ BM Bm Bp). lia.
Qed.
End RebumpFacts.

(** ** Bumping again *)
Module CounterFacts.
Import Json JS SemVer Render Gulpfile StringFacts SemVerFacts PathFacts VersionFacts.
Import PrintFacts NumeralFacts ParseFacts RebumpFacts.

Lemma parseInt_head c r :
  is_digit c = true -> Ascii.eqb c "0" = false ->
  parseInt (String c r)
  = of_integer (1 * digits_value 10 (leading_digits 10 (String c r))).
Proof.
  intros Hd H0.
  destruct c as [[] [] [] [] [] [] [] []]; try discriminate Hd; try discriminate H0;
    reflexivity.
Qed.

Lemma parseInt_minus c r :
  is_digit c = true -> Ascii.eqb c "0" = false ->
  parseInt (String "-" (String c r))
  = of_integer (-1 * digits_value 10 (leading_digits 10 (String c r))).
Proof.
  intros Hd H0.
  destruct c as [[] [] [] [] [] [] [] []]; try discriminate Hd; try discriminate H0;
    reflexivity.
Qed.

Lemma parseInt_letter c r : is_lower c || is_upper c = true -> parseInt (String c r) = NaN.
Proof.
  intros H. destruct c as [[] [] [] [] [] [] [] []]; try discriminate H; reflexivity.
Qed.

Lemma pretty_pos_head q :
  exists c r, pretty (Z.pos q) = String c r /\ is_digit c = true /\ Ascii.eqb c "0" = false.
Proof.
  unfold pretty, pretty_Z, pretty, pretty_positive, pretty, pretty_N.
  case_decide; [discriminate|]. apply pretty_N_go_head. lia.
Qed.

Lemma of_integer_safe z :
  - MAX_SAFE_INTEGER <= z <= MAX_SAFE_INTEGER -> of_integer z = Int z.
Proof.
  intros Hz. unfold of_integer.
  destruct (Z.leb_spec (- MAX_SAFE_INTEGER) z); [|lia].
  destruct (Z.leb_spec z MAX_SAFE_INTEGER); [reflexivity|lia].
Qed.

(** [parseInt] reads a printed safe integer back. *)
Lemma parseInt_pretty (z : Z) :
  - MAX_SAFE_INTEGER <= z <= MAX_SAFE_INTEGER -> parseInt (pretty z) = Int z.
Proof.
  intros Hz. destruct z as [|q|q].
  - reflexivity.
  - destruct (pretty_pos_head q) as (c & r & E & Hd & H0).
    pose proof (decimal_pretty (Z.pos q) ltac:(lia)) as D. unfold decimal in D.
    rewrite E in *. rewrite (parseInt_head _ _ Hd H0), D, Z.mul_1_l.
    apply of_integer_safe. exact Hz.
  - change (pretty (Z.neg q)) with ("-" +:+ pretty (Z.pos q)).
    destruct (pretty_pos_head q) as (c & r & E & Hd & H0).
    pose proof (decimal_pretty (Z.pos q) ltac:(lia)) as D. unfold decimal in D.
    rewrite E in *. change ("-" +:+ String c r) with (String "-" (String c r)).
    rewrite (parseInt_minus _ _ Hd H0), D.
    change (-1 * Z.pos q) with (Z.neg q). apply of_integer_safe. exact Hz.
Qed.

Lemma first_build_single n : nonempty n = true -> first_build [n] = n.
Proof. destruct n; [discriminate | reflexivity]. Qed.

Lemma new_version_value cfg argv current v b :
  new current = Ok v -> build_suffix cfg v = Ok b ->
  new_version cfg argv current = Ok (base_version argv v +:+ b).
Proof.
  intros Hv Hb. unfold new_version, derive_version. unfold_monad.
  rewrite Hv. simpl. rewrite Hb. reflexivity.
Qed.

Lemma render_build argv v bld :
  base_version argv v +:+ marked "+" bld
  = render (major v) (minor v) (patch v) (label_of_mode argv) bld.
Proof. rewrite base_version_render. unfold render. rewrite append_assoc. reflexivity. Qed.

Lemma base_version_parsed argv M m p pre bld :
  base_version argv (parsed M m p pre bld) = core M m p +:+ marked "-" (label_of_mode argv).
Proof. apply base_version_render. Qed.

(** X2.  With the automatic increment on, a mode label that is absent or
    a well-formed prerelease of at most 187 characters, and a counter [k]
    below 2^53 - 1 read from the first build identifier, the bump assigns
    [k + 1], and a second bump of what it assigned assigns [k + 2]: the
    version with the numbers of the current one, the mode label and the
    counter. *)
Theorem consecutive_bumps_count_up
    (cfg : config) (argv : invocation) (current : value) (v : SemVer.t) (k : Z) :
  new current = Ok v ->
  label_ok argv = true ->
  isIncrBuild cfg = true ->
  parseInt (first_build (build v)) = Int k ->
  k < MAX_SAFE_INTEGER ->
  let version n := render (major v) (minor v) (patch v) (label_of_mode argv)
                          (Some (pretty n)) in
  new_version cfg argv current = Ok (version (k + 1))
  /\ new_version cfg argv (Some (JStr (version (k + 1)))) = Ok (version (k + 2)).
Proof.
  intros Hv Hl Hc Hk Hlt version.
  pose proof (parseInt_range _ _ Hk) as Rk.
  assert (B1 : build_suffix cfg v = Ok (marked "+" (Some (pretty (k + 1))))).
  { unfold build_suffix. rewrite Hc, Hk. reflexivity. }
  assert (N1 : new_version cfg argv current = Ok (version (k + 1))).
  { rewrite (new_version_value _ _ _ _ _ Hv B1). rewrite render_build. reflexivity. }
  split; [exact N1|].
  destruct (new_version_reparses _ _ _ _ _ Hv Hl N1) as (bld & P & E & _ & Hon).
  destruct (Hon Hc) as (n & -> & Hn). rewrite Hk in Hn. simpl in Hn. injection Hn as <-.
  destruct (plain_build (pretty (k + 1))) as [Sp _];
    [apply pretty_nonempty; lia | apply pretty_ident|].
  assert (B2 : build_suffix cfg (parsed (major v) (minor v) (patch v) (label_of_mode argv)
                                        (Some (pretty (k + 1))))
               = Ok (marked "+" (Some (pretty (k + 2))))).
  { unfold build_suffix. rewrite Hc. cbn [SemVer.build parsed]. rewrite Sp.
    rewrite first_build_single by (apply pretty_nonempty; lia).
    rewrite parseInt_pretty by lia. simpl.
    replace (k + 1 + 1) with (k + 2) by lia. reflexivity. }
  rewrite (new_version_value _ _ _ _ _ P B2), base_version_parsed.
  unfold version, render. rewrite append_assoc. reflexivity.
Qed.

Lemma consecutive_bumps_count_up_witness :
  new_version shipped Sample.develop (Some (JStr "1.2.5+3")) = Ok "1.2.5-develop+4"
  /\ new_version shipped Sample.develop (Some (JStr "1.2.5-develop+4")) = Ok "1.2.5-develop+5".
Proof.
  assert (Hv : new (Some (JStr "1.2.5+3")) = Ok (parsed 1 2 5 None (Some "3")))
    by (vm_compute; reflexivity).
  assert (Hl : label_ok Sample.develop = true) by (vm_compute; reflexivity).
  assert (Hk : parseInt (first_build (build (parsed 1 2 5 None (Some "3")))) = Int 3)
    by (vm_compute; reflexivity).
  assert (Hlt : 3 < MAX_SAFE_INTEGER) by reflexivity.
  exact (consecutive_bumps_count_up shipped Sample.develop _ _ 3 Hv Hl eq_refl Hk Hlt).
Defined.

(** X3.  With the automatic increment off and a mode label that is
    absent or a well-formed prerelease of at most 187 characters, a second
    bump assigns the version the first one assigned. *)
Theorem bump_without_increment_is_idempotent
    (cfg : config) (argv : invocation) (current : value) (v : SemVer.t) (next : string) :
  new current = Ok v ->
  label_ok argv = true ->
  isIncrBuild cfg = false ->
  new_version cfg argv current = Ok next ->
  new_version cfg argv (Some (JStr next)) = Ok next.
Proof.
  intros Hv Hl Hc Hn.
  destruct (new_version_reparses _ _ _ _ _ Hv Hl Hn) as (bld & P & E & Hoff & _).
  rewrite (Hoff Hc) in *.
  assert (B : build_suffix cfg (parsed (major v) (minor v) (patch v) (label_of_mode argv) None)
              = Ok (marked "+" None)).
  { unfold build_suffix. rewrite Hc. reflexivity. }
  rewrite (new_version_value _ _ _ _ _ P B), base_version_parsed, E.
  unfold render. rewrite append_assoc. reflexivity.
Qed.

Lemma bump_without_increment_is_idempotent_witness :
  new_version (Sample.auto false) Sample.develop (Some (JStr "1.2.5+3")) = Ok "1.2.5-develop"
  /\ new_version (Sample.auto false) Sample.develop (Some (JStr "1.2.5-develop"))
     = Ok "1.2.5-develop".
Proof.
  assert (Hv : new (Some (JStr "1.2.5+3")) = Ok (parsed 1 2 5 None (Some "3")))
    by (vm_compute; reflexivity).
  assert (Hl : label_ok Sample.develop = true) by (vm_compute; reflexivity).
  assert (Hn : new_version (Sample.auto false) Sample.develop (Some (JStr "1.2.5+3"))
               = Ok "1.2.5-develop") by (vm_compute; reflexivity).
  split; [exact Hn|].
  exact (bump_without_increment_is_idempotent (Sample.auto false) Sample.develop
           _ _ _ Hv Hl eq_refl Hn).
Defined.

(** X4.  With the increment on, a current version whose first build
    identifier starts with a letter is bumped to its numbers, the mode
    label and [+NaN]: no exception, no fallback to zero. *)
Theorem letter_build_gives_NaN
    (cfg : config) (argv : invocation) (current : value) (v : SemVer.t)
    (c : ascii) (r : string) (rest : list string) :
  new current = Ok v ->
  isIncrBuild cfg = true ->
  build v = String c r :: rest ->
  is_lower c || is_upper c = true ->
  new_version cfg argv current
  = Ok (render (major v) (minor v) (patch v) (label_of_mode argv) (Some "NaN")).
Proof.
  intros Hv Hc Hb Hl.
  assert (B : build_suffix cfg v = Ok (marked "+" (Some "NaN"))).
  { unfold build_suffix. rewrite Hc, Hb. cbn [first_build].
    rewrite (parseInt_letter _ _ Hl). reflexivity. }
  rewrite (new_version_value _ _ _ _ _ Hv B), render_build. reflexivity.
Qed.

Lemma letter_build_gives_NaN_witness :
  new_version shipped (Sample.with_mode None) (Some (JStr "1.2.5+abc.7")) = Ok "1.2.5+NaN".
Proof.
  assert (Hv : new (Some (JStr "1.2.5+abc.7")) = Ok (parsed 1 2 5 None (Some "abc.7")))
    by (vm_compute; reflexivity).
  exact (letter_build_gives_NaN shipped (Sample.with_mode None) _ _ "a" "bc" ["7"]
           Hv eq_refl eq_refl eq_refl).
Defined.

(** X5.  Once the counter is NaN it stays.  With the increment on and a
    mode label that is absent or a well-formed prerelease of at most 187
    characters, the bump assigns a version ending in [+NaN], and a bump
    of that version assigns it again. *)
Theorem NaN_counter_is_absorbing
    (cfg : config) (argv : invocation) (current : value) (v : SemVer.t) :
  new current = Ok v ->
  label_ok argv = true ->
  isIncrBuild cfg = true ->
  parseInt (first_build (build v)) = NaN ->
  let stuck := render (major v) (minor v) (patch v) (label_of_mode argv) (Some "NaN") in
  new_version cfg argv current = Ok stuck
  /\ new_version cfg argv (Some (JStr stuck)) = Ok stuck.
Proof.
  intros Hv Hl Hc Hk stuck.
  assert (B1 : build_suffix cfg v = Ok (marked "+" (Some "NaN"))).
  { unfold build_suffix. rewrite Hc, Hk. reflexivity. }
  assert (N1 : new_version cfg argv current = Ok stuck).
  { rewrite (new_version_value _ _ _ _ _ Hv B1). rewrite render_build. reflexivity. }
  split; [exact N1|].
  destruct (new_version_reparses _ _ _ _ _ Hv Hl N1) as (bld & P & E & _ & Hon).
  destruct (Hon Hc) as (n & -> & Hn). rewrite Hk in Hn. simpl in Hn. injection Hn as <-.
  assert (B2 : build_suffix cfg (parsed (major v) (minor v) (patch v) (label_of_mode argv)
                                        (Some "NaN"))
               = Ok (marked "+" (Some "NaN"))).
  { unfold build_suffix. rewrite Hc. reflexivity. }
  rewrite (new_version_value _ _ _ _ _ P B2), base_version_parsed.
  unfold stuck, render. rewrite append_assoc. reflexivity.
Qed.

Lemma NaN_counter_is_absorbing_witness :
  new_version shipped Sample.develop (Some (JStr "1.2.5+build.7")) = Ok "1.2.5-develop+NaN"
  /\ new_version shipped Sample.develop (Some (JStr "1.2.5-develop+NaN"))
     = Ok "1.2.5-develop+NaN".
Proof.
  assert (Hv : new (Some (JStr "1.2.5+build.7")) = Ok (parsed 1 2 5 None (Some "build.7")))
    by (vm_compute; reflexivity).
  assert (Hl : label_ok Sample.develop = true) by (vm_compute; reflexivity).
  assert (Hk : parseInt (first_build (build (parsed 1 2 5 None (Some "build.7")))) = NaN)
    by (vm_compute; reflexivity).
  exact (NaN_counter_is_absorbing shipped Sample.develop _ _ Hv Hl eq_refl Hk).
Defined.

(** A counter that is NaN or a tracked integer has a text. *)
Lemma tracked_counter cfg v :
  (isIncrBuild cfg = true ->
   parseInt (first_build (build v)) = NaN
   \/ exists k, parseInt (first_build (build v)) = Int k) ->
  exists b, build_suffix cfg v = Ok b.
Proof.
  intros H. unfold build_suffix. destruct (isIncrBuild cfg); [|eexists; reflexivity].
  destruct (H eq_refl) as [->|[k ->]]; eexists; reflexivity.
Qed.

(** X1.  The version a bump assigns is one the next bump can read,
    provided the mode label, if any, is a well-formed prerelease of at
    most 187 characters and, with the increment on, the counter read from
    the build is NaN or an integer of magnitude at most 2^53 - 1.  Then
    the bump assigns a version, the strict parser accepts it, and it
    holds the numbers of the current version, the mode label as
    prerelease and the new counter as only build identifier (no build
    when the increment is off). *)
Theorem bumped_version_parses
    (cfg : config) (argv : invocation) (current : value) (v : SemVer.t) :
  new current = Ok v ->
  label_ok argv = true ->
  (isIncrBuild cfg = true ->
   parseInt (first_build (build v)) = NaN
   \/ exists k, parseInt (first_build (build v)) = Int k) ->
  exists next v',
    new_version cfg argv current = Ok next
    /\ new (Some (JStr next)) = Ok v'
    /\ raw v' = next
    /\ (major v', minor v', patch v') = (major v, minor v, patch v)
    /\ prerelease v' = match label_of_mode argv with
                       | Some m => map numberify (split "." m)
                       | None => []
                       end
    /\ (isIncrBuild cfg = false -> build v' = [])
    /\ (isIncrBuild cfg = true ->
        exists n, number_to_string (succ (parseInt (first_build (build v)))) = Ok n
                  /\ build v' = [n]).
Proof.
  intros Hv Hl Hc.
  destruct (tracked_counter cfg v Hc) as [b Hb].
  pose proof (new_version_value cfg argv _ _ _ Hv Hb) as Hn.
  destruct (new_version_reparses _ _ _ _ _ Hv Hl Hn) as (bld & P & E & Hoff & Hon).
  eexists. eexists. split; [exact Hn|]. split; [exact P|]. split; [symmetry; exact E|].
  split; [reflexivity|]. split; [reflexivity|]. split.
  - intros Hi. rewrite (Hoff Hi). reflexivity.
  - intros Hi. destruct (Hon Hi) as (n & -> & Hs). exists n. split; [exact Hs|].
    destruct (counter_build v n Hs) as (Sp & _ & _). exact Sp.
Qed.

Lemma bumped_version_parses_witness :
  exists v',
    new_version shipped Sample.develop (Some (JStr "1.2.5-beta.2+3")) = Ok "1.2.5-develop+4"
    /\ new (Some (JStr "1.2.5-develop+4")) = Ok v'
    /\ (major v', minor v', patch v') = (1, 2, 5)
    /\ prerelease v' = [Alnum "develop"]
    /\ build v' = ["4"].
Proof.
  assert (Hv : new (Some (JStr "1.2.5-beta.2+3"))
               = Ok (parsed 1 2 5 (Some "beta.2") (Some "3")))
    by (vm_compute; reflexivity).
  assert (Hl : label_ok Sample.develop = true) by (vm_compute; reflexivity).
  assert (Hc : isIncrBuild shipped = true ->
               parseInt (first_build (build (parsed 1 2 5 (Some "beta.2") (Some "3")))) = NaN
               \/ exists k, parseInt (first_build
                                        (build (parsed 1 2 5 (Some "beta.2") (Some "3"))))
                            = Int k)
    by (intros _; right; exists 3; vm_compute; reflexivity).
  destruct (bumped_version_parses shipped Sample.develop _ _ Hv Hl Hc)
    as (next & v' & Hn & P & _ & N & Pre & _ & Hon).
  assert (E : next = "1.2.5-develop+4").
  { assert (C : new_version shipped Sample.develop (Some (JStr "1.2.5-beta.2+3"))
                = Ok "1.2.5-develop+4") by (vm_compute; reflexivity).
    rewrite C in Hn. injection Hn as <-. reflexivity. }
  subst next.
  exists v'. split; [exact Hn|]. split; [exact P|]. split; [exact N|]. split; [exact Pre|].
  destruct (Hon eq_refl) as (n & Hs & B). rewrite B.
  vm_compute in Hs. injection Hs as <-. reflexivity.
Defined.

(** Why the label must be well formed: hot_fix is no prerelease; the
    first bump assigns it all the same, and the next bump refuses the
    version. *)
Lemma ill_formed_label_stops_the_next_bump :
  new_version shipped (Sample.with_mode (Some "hot_fix")) (Some (JStr "1.2.5+3"))
    = Ok "1.2.5-hot_fix+4"
  /\ new_version shipped (Sample.with_mode (Some "hot_fix")) (Some (JStr "1.2.5-hot_fix+4"))
     = Throw (TypeError "Invalid Version: 1.2.5-hot_fix+4")
  /\ label_ok (Sample.with_mode (Some "hot_fix")) = false.
Proof. vm_compute. repeat split. Qed.
End CounterFacts.

(** ** Failures of the bump *)
Module TaskFacts.
Import Json Gulpfile JsonFacts RunFacts VersionFacts BumpFacts StartupFacts BundleFacts PathFacts.

(** X6.  A version that is missing, is no string, or does not match the
    strict pattern makes the bump throw a TypeError at once: the clock is
    not asked, nothing is written, gulp-bump is not started. *)
Theorem bump_rejects_bad_version
    (cfg : config) (argv : invocation) {S : Type} (W : world S)
    (m : manifest) (s : S) :
  (forall t, get "version" m = Some (JStr t) -> SemVer.match_full (JS.trim t) = None) ->
  exists msg, run W (bump_version cfg argv m) s = (Throw (TypeError msg), s, []).
Proof.
  intros H. unfold bump_version, derive_version. unfold_monad.
  destruct (get "version" m) as [[| | |t| |]|] eqn:G;
    try (eexists; reflexivity).
  unfold SemVer.new. destruct (SemVer.MAX_LENGTH <? SemVer.utf16_length t).
  - eexists; reflexivity.
  - rewrite (H t eq_refl). eexists; reflexivity.
Qed.

Lemma bump_rejects_bad_version_witness :
  (forall t, get "version" [("title", JStr "$:/plugins/danielo515/pouchdb")] = Some (JStr t) ->
             SemVer.match_full (JS.trim t) = None)
  /\ exists msg,
       run (Disk.World Sample.the_host)
           (bump_version shipped Sample.develop [("title", JStr "$:/plugins/danielo515/pouchdb")])
           (Sample.disk Sample.pluginInfo None)
       = (Throw (TypeError msg), Sample.disk Sample.pluginInfo None, []).
Proof.
  assert (H : forall t, get "version" [("title", JStr "$:/plugins/danielo515/pouchdb")]
                        = Some (JStr t) -> SemVer.match_full (JS.trim t) = None)
    by (intros t; discriminate).
  split; [exact H|].
  exact (bump_rejects_bad_version shipped Sample.develop (Disk.World Sample.the_host) _ _ H).
Defined.

(** Every run of the bump, complete or not: it reads no file, creates no
    folder, writes at most once and only plugin.info, and starts gulp-bump
    only after that write has succeeded. *)
Lemma bump_effects
    (cfg : config) (argv : invocation) {S : Type} (W : world S)
    (m : manifest) (s s' : S) (r : result manifest) (tr : list event) :
  run W (bump_version cfg argv m) s = (r, s', tr) ->
  reads tr = [] /\ mkdirs tr = [] /\ loaded tr = []
  /\ (writes tr = [] \/ exists text, writes tr = [(pluginInfoPath cfg argv, text)])
  /\ (bumps tr <> [] ->
      exists text, In (Event (WriteFileSync (pluginInfoPath cfg argv) text) (Ok tt)) tr).
Proof.
  unfold bump_version. unfold_monad.
  destruct (derive_version cfg argv (get "version" m)) as [[version build]|e|]; simpl.
  2,3: intros [= <- <- <-]; repeat split; try (left; reflexivity); intros []; reflexivity.
  destruct (answer W UTCString s) as [[now|e|] s1].
  2,3: intros [= <- <- <-]; repeat split; try (left; reflexivity); intros []; reflexivity.
  destruct (answer W (WriteFileSync _ _) s1) as [[[]|e|] s2].
  2,3: intros [= <- <- <-]; repeat split; try (right; eexists; reflexivity);
       intros []; reflexivity.
  destruct (answer W (GulpBump _ _ _ _) s2) as [[u|e|] s3];
    intros [= <- <- <-]; repeat split; try (right; eexists; reflexivity);
    intros _; eexists; right; left; reflexivity.
Qed.

(** The calls of a bump are calls of the bump, and gulp-bump is started
    at most once, on package.json, after the manifest was written. *)
Lemma bump_calls
    (cfg : config) (argv : invocation) {S : Type} (W : world S)
    (m : manifest) (s s' : S) (r : result manifest) (tr : list event) :
  run W (bump_version cfg argv m) s = (r, s', tr) ->
  forallb of_bump tr = true
  /\ (bumps tr = []
      \/ exists version text,
           bumps tr = [("./package.json", "version", version)]
           /\ In (Event (WriteFileSync (pluginInfoPath cfg argv) text) (Ok tt)) tr).
Proof.
  unfold bump_version. unfold_monad.
  destruct (derive_version cfg argv (get "version" m)) as [[version build]|e|]; simpl.
  2,3: intros [= <- <- <-]; split; [|left]; reflexivity.
  destruct (answer W UTCString s) as [[now|e|] s1].
  2,3: intros [= <- <- <-]; split; [|left]; reflexivity.
  destruct (answer W (WriteFileSync _ _) s1) as [[[]|e|] s2].
  2,3: intros [= <- <- <-]; split; [|left]; reflexivity.
  destruct (answer W (GulpBump _ _ _ _) s2) as [outcome s3].
  intros [= <- <- <-]. split; [reflexivity|]. right. eexists. eexists.
  split; [reflexivity|]. right. left. reflexivity.
Qed.

(** X7.  No rollback, and no report.  When the write of plugin.info
    throws, the task ends with that error and gulp-bump is never started.
    When the write succeeds, the task completes with the bumped manifest
    however the gulp-bump stream ends: a stream that fails leaves
    plugin.info written with the new version, and the task does not
    fail. *)
Theorem bump_has_no_rollback
    (cfg : config) (argv : invocation) {S : Type} (W : world S)
    (m : manifest) (version build now : string) (s s1 s2 : S) :
  derive_version cfg argv (get "version" m) = Ok (version, build) ->
  answer W UTCString s = (Ok now, s1) ->
  let m' := bumped m (version +:+ build) now in
  let write := WriteFileSync (pluginInfoPath cfg argv) (stringify (JObj m')) in
  let bump := GulpBump "./package.json" "version" version "./" in
  (forall e, answer W write s1 = (Throw e, s2) ->
     run W (bump_version cfg argv m) s
     = (Throw e, s2, [Event UTCString (Ok now); Event write (Throw e)]))
  /\ (forall outcome s3,
       answer W write s1 = (Ok tt, s2) -> answer W bump s2 = (outcome, s3) ->
       run W (bump_version cfg argv m) s
       = (Ok m', s3, [Event UTCString (Ok now); Event write (Ok tt); Event bump outcome])).
Proof.
  intros D A1 m' write bump. subst m' write bump.
  unfold bump_version, bumped. unfold_monad. rewrite D. simpl. rewrite A1. split.
  - intros e A2. rewrite A2. reflexivity.
  - intros outcome s3 A2 A3. rewrite A2, A3. reflexivity.
Qed.

Lemma bump_has_no_rollback_witness :
  let full := Sample.disk Sample.pluginInfo (Some 20%nat) in
  let free := Sample.disk Sample.pluginInfo None in
  let write := WriteFileSync (pluginInfoPath shipped Sample.develop)
                             (stringify (JObj Sample.after_bump)) in
  run (Disk.World Sample.the_host) (bump_version shipped Sample.develop Sample.pluginInfo) full
    = (Throw (SystemError "ENOSPC"), snd (fst Sample.interrupted),
       [ Event UTCString (Ok "Mon, 02 Nov 2026 10:00:00 GMT");
         Event write (Throw (SystemError "ENOSPC")) ])
  /\ run Sample.broken_stream (bump_version shipped Sample.develop Sample.pluginInfo) free
     = (Ok Sample.after_bump, snd (fst Sample.bumping),
        [ Event UTCString (Ok "Mon, 02 Nov 2026 10:00:00 GMT");
          Event write (Ok tt);
          Event (GulpBump "./package.json" "version" "1.2.5-develop" "./")
                (Throw (Error "Problem bumping")) ]).
Proof.
  intros full free write.
  assert (D : derive_version shipped Sample.develop (get "version" Sample.pluginInfo)
              = Ok ("1.2.5-develop", "+4")) by (vm_compute; reflexivity).
  split.
  - assert (A : answer (Disk.World Sample.the_host) UTCString full
                = (Ok "Mon, 02 Nov 2026 10:00:00 GMT", full)) by reflexivity.
    destruct (bump_has_no_rollback shipped Sample.develop (Disk.World Sample.the_host)
                Sample.pluginInfo _ _ _ _ _ (snd (fst Sample.interrupted)) D A) as [Hfail _].
    apply Hfail. vm_compute. reflexivity.
  - assert (A : answer Sample.broken_stream UTCString free
                = (Ok "Mon, 02 Nov 2026 10:00:00 GMT", free)) by reflexivity.
    destruct (bump_has_no_rollback shipped Sample.develop Sample.broken_stream
                Sample.pluginInfo _ _ _ _ _ (snd (fst Sample.bumping)) D A) as [_ Hdone].
    apply Hdone; vm_compute; reflexivity.
Defined.
End TaskFacts.

(** ** Failures of the loading *)
Module LoadFacts.
Import Json Gulpfile JsonFacts RunFacts VersionFacts BumpFacts StartupFacts BundleFacts PathFacts.

(** What the loading of the module does, whatever the world answers: it
    reads plugin.info and parses it, and nothing else. *)
Lemma preprocessing_run
    (cfg : config) (argv : invocation) {S : Type} (W : world S)
    (s s' : S) (r : result manifest) (tr : list event) :
  run W (preprocessing cfg argv) s = (r, s', tr) ->
  writes tr = [] /\ mkdirs tr = [] /\ bumps tr = [] /\ loaded tr = []
  /\ reads tr = [pluginInfoPath cfg argv]
  /\ (forall m, r = Ok m -> get "title" m = Some (JStr (pluginTiddler cfg))).
Proof.
  unfold preprocessing. unfold_monad. simpl.
  destruct (answer W (ReadFileSync _ _) s) as [[text|e|] s1]; simpl.
  2,3: intros [= <- <- <-]; repeat split; intros; discriminate.
  destruct (answer W (JSONparse text) s1) as [[j|e|] s2]; simpl.
  2,3: intros [= <- <- <-]; repeat split; intros; discriminate.
  destruct (property j "title") as [title|e|] eqn:P; simpl.
  2,3: intros [= <- <- <-]; repeat split; intros; discriminate.
  destruct (differs cfg title) eqn:D; simpl.
  1: intros [= <- <- <-]; repeat split; intros; discriminate.
  apply differs_spec in D. subst title.
  destruct j as [| | | | |fields]; simpl;
    intros [= <- <- <-]; repeat split; try (intros; discriminate).
  intros m [= <-]. simpl in P. injection P as P. exact P.
Qed.

(** A loading that returns a manifest has read the file and parsed the
    text into it, and the manifest bears the configured title. *)
Lemma preprocessing_ok
    (cfg : config) (argv : invocation) {S : Type} (W : world S)
    (s s' : S) (m : manifest) (tr : list event) :
  run W (preprocessing cfg argv) s = (Ok m, s', tr) ->
  get "title" m = Some (JStr (pluginTiddler cfg))
  /\ exists text,
       tr = [ Event (ReadFileSync (pluginInfoPath cfg argv) "utf8") (Ok text);
              Event (JSONparse text) (Ok (JObj m)) ].
Proof.
  unfold preprocessing. unfold_monad. simpl.
  destruct (answer W (ReadFileSync _ _) s) as [[text|e|] s1]; simpl; try discriminate.
  destruct (answer W (JSONparse text) s1) as [[j|e|] s2]; simpl; try discriminate.
  destruct (property j "title") as [title|e|] eqn:P; simpl; try discriminate.
  destruct (differs cfg title) eqn:D; simpl; try discriminate.
  apply differs_spec in D. subst title.
  destruct j as [| | | | |fields]; simpl; try discriminate.
  intros [= <- <- <-]. simpl in P. injection P as P.
  split; [exact P|]. exists text. reflexivity.
Qed.

Lemma preprocessing_calls
    (cfg : config) (argv : invocation) {S : Type} (W : world S)
    (s s' : S) (r : result manifest) (tr : list event) :
  run W (preprocessing cfg argv) s = (r, s', tr) -> forallb of_bump tr = true.
Proof.
  unfold preprocessing. unfold_monad. simpl.
  destruct (answer W (ReadFileSync _ _) s) as [[text|e|] s1]; simpl.
  2,3: intros [= <- <- <-]; reflexivity.
  destruct (answer W (JSONparse text) s1) as [[j|e|] s2]; simpl.
  2,3: intros [= <- <- <-]; reflexivity.
  destruct (property j "title") as [title|e|]; simpl.
  2,3: intros [= <- <- <-]; reflexivity.
  destruct (differs cfg title); simpl; [intros [= <- <- <-]; reflexivity|].
  destruct j; simpl; intros [= <- <- <-]; reflexivity.
Qed.

(** X8.  A loading that fails, for whatever reason, ends every run of gulp
    where the loading ended: same error, same state, same calls; no
    task has run, whatever tasks were named. *)
Theorem failed_loading_runs_no_task
    (cfg : config) (argv : invocation) {S : Type} (W : world S)
    (s s' : S) (r : result manifest) (tr : list event) :
  run W (preprocessing cfg argv) s = (r, s', tr) ->
  (forall m, r <> Ok m) ->
  forall names,
    run W (gulp cfg argv names) s = (r, s', tr)
    /\ writes tr = [] /\ mkdirs tr = [] /\ bumps tr = [] /\ loaded tr = [].
Proof.
  intros R F names.
  destruct (preprocessing_run cfg argv W _ _ _ _ R) as (Hw & Hm & Hb & Hl & _).
  split; [|repeat split; assumption].
  unfold gulp. unfold_monad. rewrite run_bind, R.
  destruct r as [m|e|]; [destruct (F m eq_refl)|reflexivity|reflexivity].
Qed.

Lemma failed_loading_runs_no_task_witness :
  let s := {| Disk.files := ∅; Disk.dirs := ∅; Disk.room := None |} in
  let failure := [ Event (ReadFileSync (pluginInfoPath shipped Sample.develop) "utf8")
                         (Throw (SystemError "ENOENT")) ] in
  run (Disk.World Sample.the_host) (preprocessing shipped Sample.develop) s
    = (Throw (SystemError "ENOENT"), s, failure)
  /\ run (Disk.World Sample.the_host)
         (gulp shipped Sample.develop ["perform cleanup"; "bump version"]) s
     = (Throw (SystemError "ENOENT"), s, failure).
Proof.
  intros s failure.
  assert (R : run (Disk.World Sample.the_host) (preprocessing shipped Sample.develop) s
              = (Throw (SystemError "ENOENT"), s, failure)) by (vm_compute; reflexivity).
  split; [exact R|].
  apply (failed_loading_runs_no_task shipped Sample.develop (Disk.World Sample.the_host)
           _ _ _ _ R); discriminate.
Defined.

(** X9.  The three ways the loading fails before the sanity check: the
    file cannot be read, its text is no JSON, or it holds [null], whose
    title cannot be read: the engine's TypeError for a property of null,
    not the mismatch error.  Each ends every run of gulp with that error,
    nothing done but the calls of the loading. *)
Theorem unusable_manifest_aborts
    (cfg : config) (argv : invocation) {S : Type} (W : world S) (s : S)
    (names : list string) :
  let read := ReadFileSync (pluginInfoPath cfg argv) "utf8" in
  (forall e s1, answer W read s = (Throw e, s1) ->
     run W (gulp cfg argv names) s = (Throw e, s1, [Event read (Throw e)]))
  /\ (forall text e s1 s2,
        answer W read s = (Ok text, s1) -> answer W (JSONparse text) s1 = (Throw e, s2) ->
        run W (gulp cfg argv names) s
        = (Throw e, s2, [Event read (Ok text); Event (JSONparse text) (Throw e)]))
  /\ (forall text s1 s2,
        answer W read s = (Ok text, s1) -> answer W (JSONparse text) s1 = (Ok JNull, s2) ->
        run W (gulp cfg argv names) s
        = (Throw (PropertyOfNull "title"), s2,
           [Event read (Ok text); Event (JSONparse text) (Ok JNull)])).
Proof.
  intros read. subst read. repeat split.
  - intros e s1 A. unfold gulp. unfold_monad. rewrite run_bind.
    unfold preprocessing. unfold_monad. simpl. rewrite A. reflexivity.
  - intros text e s1 s2 A1 A2. unfold gulp. unfold_monad. rewrite run_bind.
    unfold preprocessing. unfold_monad. simpl. rewrite A1. simpl. rewrite A2. reflexivity.
  - intros text s1 s2 A1 A2. unfold gulp. unfold_monad. rewrite run_bind.
    unfold preprocessing. unfold_monad. simpl. rewrite A1. simpl. rewrite A2.
    reflexivity.
Qed.

Lemma unusable_manifest_aborts_witness :
  let h := {| Disk.clock := ""; Disk.parser := fun _ => Ok JNull;
              Disk.loader := fun _ => Ok JNull |} in
  let s := Sample.disk Sample.pluginInfo None in
  let read := ReadFileSync (pluginInfoPath shipped Sample.develop) "utf8" in
  let text := stringify (JObj Sample.pluginInfo) in
  run (Disk.World h) (gulp shipped Sample.develop ["bump version"]) s
  = (Throw (PropertyOfNull "title"), s,
     [Event read (Ok text); Event (JSONparse text) (Ok JNull)]).
Proof.
  intros h s read text.
  assert (A1 : answer (Disk.World h) read s = (Ok text, s)) by (vm_compute; reflexivity).
  assert (A2 : answer (Disk.World h) (JSONparse text) s = (Ok JNull, s)) by reflexivity.
  exact (proj2 (proj2 (unusable_manifest_aborts shipped Sample.develop (Disk.World h) s
                         ["bump version"])) text s s A1 A2).
Defined.

(** X10.  Whatever the author, the plugin name and the working
    directory, the manifest the script reads and writes is a file called
    plugin.info. *)
Theorem manifest_is_called_plugin_info (cfg : config) (argv : invocation) :
  Path.basename (pluginInfoPath cfg argv) = "plugin.info".
Proof.
  unfold pluginInfoPath.
  apply (basename_resolve (cwd argv) [pluginSrc; pluginNamespace cfg] "plugin.info").
  reflexivity.
Qed.
End LoadFacts.

(** ** Runs of the bundle task *)
Module BundleRunFacts.
Import Json Gulpfile JsonFacts RunFacts VersionFacts BumpFacts StartupFacts BundleFacts PathFacts.

(** The calls of a bundle task that completes. *)
Lemma bundle_complete
    (cfg : config) (argv : invocation) {S : Type} (W : world S)
    (m : manifest) (s s' : S) (tr : list event) :
  run W (bundle_the_plugin cfg argv m) s = (Ok tt, s', tr) ->
  exists plugin there,
    tr = ([ Event (TiddlyWikiBoot ["--verbose"]) (Ok tt);
            Event (LoadPluginFolder (dist_folder cfg argv)) (Ok plugin);
            Event (Exists "./bundle/") (Ok there) ]
          ++ (if there : bool then [] else [Event (MkdirSync "./bundle/") (Ok tt)])
          ++ [ Event (WriteFileSync (artifact cfg argv m) (stringify (JArr [plugin]))) (Ok tt);
               Event Beep (Ok tt) ])%list.
Proof.
  unfold bundle_the_plugin. unfold_monad. simpl.
  destruct (answer W (TiddlyWikiBoot _) s) as [[[]|e|] s1]; simpl; try discriminate.
  destruct (answer W (LoadPluginFolder _) s1) as [[plugin|e|] s2]; simpl; try discriminate.
  destruct (answer W (Exists _) s2) as [[[]|e|] s3]; simpl; try discriminate.
  - destruct (answer W (WriteFileSync _ _) s3) as [[[]|e|] s4]; simpl; try discriminate.
    destruct (answer W Beep s4) as [[[]|e|] s5]; simpl; try discriminate.
    intros [= <- <-]. exists plugin, true. reflexivity.
  - destruct (answer W (MkdirSync _) s3) as [[[]|e|] s4]; simpl; try discriminate.
    destruct (answer W (WriteFileSync _ _) s4) as [[[]|e|] s5]; simpl; try discriminate.
    destruct (answer W Beep s5) as [[[]|e|] s6]; simpl; try discriminate.
    intros [= <- <-]. exists plugin, false. reflexivity.
Qed.

(** X11.  The calls of a bundle task that completes, in order: the wiki is
    booted with --verbose, the plugin folder under dist is loaded, the
    bundle folder is looked up and created exactly when it is missing,
    the artifact is written, the beep sounds. *)
Theorem bundle_run_in_order
    (cfg : config) (argv : invocation) {S : Type} (W : world S)
    (m : manifest) (s s' : S) (tr : list event) :
  run W (bundle_the_plugin cfg argv m) s = (Ok tt, s', tr) ->
  exists plugin there,
    tr = ([ Event (TiddlyWikiBoot ["--verbose"]) (Ok tt);
            Event (LoadPluginFolder (dist_folder cfg argv)) (Ok plugin);
            Event (Exists "./bundle/") (Ok there) ]
          ++ (if there : bool then [] else [Event (MkdirSync "./bundle/") (Ok tt)])
          ++ [ Event (WriteFileSync (artifact cfg argv m) (stringify (JArr [plugin]))) (Ok tt);
               Event Beep (Ok tt) ])%list
    /\ mkdirs tr = (if there then [] else ["./bundle/"])
    /\ loaded tr = [plugin].
Proof.
  intros R. destruct (bundle_complete cfg argv W _ _ _ _ R) as (plugin & there & ->).
  exists plugin, there. destruct there; repeat split; reflexivity.
Qed.

Lemma bundle_run_in_order_witness :
  fst (fst Sample.bundling) = Ok tt
  /\ mkdirs (snd Sample.bundling) = ["./bundle/"]
  /\ exists plugin there,
       snd Sample.bundling
       = ([ Event (TiddlyWikiBoot ["--verbose"]) (Ok tt);
            Event (LoadPluginFolder (dist_folder shipped Sample.develop)) (Ok plugin);
            Event (Exists "./bundle/") (Ok there) ]
          ++ (if there : bool then [] else [Event (MkdirSync "./bundle/") (Ok tt)])
          ++ [ Event (WriteFileSync (artifact shipped Sample.develop Sample.after_bump)
                                    (stringify (JArr [plugin]))) (Ok tt);
               Event Beep (Ok tt) ])%list.
Proof.
  assert (R : run (Disk.World Sample.the_host)
                  (bundle_the_plugin shipped Sample.develop Sample.after_bump)
                  (snd (fst Sample.bumping))
              = (Ok tt, snd (fst Sample.bundling), snd Sample.bundling))
    by (vm_compute; reflexivity).
  destruct (bundle_run_in_order shipped Sample.develop (Disk.World Sample.the_host)
              _ _ _ _ R) as (plugin & there & Htr & _).
  split; [vm_compute; reflexivity|].
  split; [vm_compute; reflexivity|].
  exists plugin, there. exact Htr.
Defined.

(** X12.  No run of the bundle task calls [fs.readFileSync] or starts
    gulp-bump: what it reads, the wiki reads, when it loads the plugin
    folder.  And a run in which [loadPluginFolder] did not return, the
    boot or the load having thrown, makes no folder and writes no file,
    and does not complete.  (A folder without a plugin does not throw:
    the wiki returns [null] and the run goes on.) *)
Theorem bundle_without_plugin_writes_nothing
    (cfg : config) (argv : invocation) {S : Type} (W : world S)
    (m : manifest) (s s' : S) (r : result unit) (tr : list event) :
  run W (bundle_the_plugin cfg argv m) s = (r, s', tr) ->
  reads tr = [] /\ bumps tr = []
  /\ (loaded tr = [] -> writes tr = [] /\ mkdirs tr = [] /\ r <> Ok tt).
Proof.
  unfold bundle_the_plugin. unfold_monad. simpl.
  repeat first
    [ next_answer W
    | match goal with
      | b : bool |- _ => destruct b; simpl
      end ];
  intros H; injection H as <- <- <-;
  (split; [reflexivity|]); (split; [reflexivity|]);
  intros L; first [discriminate L | repeat split; discriminate].
Qed.

Lemma bundle_without_plugin_writes_nothing_witness :
  let h := {| Disk.clock := ""; Disk.parser := fun _ => Ok JNull;
              Disk.loader := fun _ => Throw (SyntaxError "Unexpected token") |} in
  let s := Sample.disk Sample.pluginInfo None in
  run (Disk.World h) (bundle_the_plugin shipped Sample.develop Sample.pluginInfo) s
    = (Throw (SyntaxError "Unexpected token"), s,
       [ Event (TiddlyWikiBoot ["--verbose"]) (Ok tt);
         Event (LoadPluginFolder (dist_folder shipped Sample.develop))
               (Throw (SyntaxError "Unexpected token")) ])
  /\ Throw (SyntaxError "Unexpected token") <> Ok tt.
Proof.
  intros h s.
  assert (R : run (Disk.World h) (bundle_the_plugin shipped Sample.develop Sample.pluginInfo) s
    = (Throw (SyntaxError "Unexpected token"), s,
       [ Event (TiddlyWikiBoot ["--verbose"]) (Ok tt);
         Event (LoadPluginFolder (dist_folder shipped Sample.develop))
               (Throw (SyntaxError "Unexpected token")) ]))
    by (vm_compute; reflexivity).
  split; [exact R|].
  destruct (bundle_without_plugin_writes_nothing shipped Sample.develop (Disk.World h)
              _ _ _ _ _ R) as (_ & _ & H).
  destruct (H eq_refl) as (_ & _ & Hr). exact Hr.
Defined.

(** X13.  Bundling is repeatable: two complete runs of the task on the same
    manifest version, in whatever worlds, in which the wiki returned the
    same plugin write the same text to the same file.  Nothing of the
    clock or of an earlier bundle enters the artifact. *)
Theorem bundle_is_repeatable
    (cfg : config) (argv : invocation) {S1 S2 : Type} (W1 : world S1) (W2 : world S2)
    (m1 m2 : manifest) (s1 s1' : S1) (s2 s2' : S2) (tr1 tr2 : list event) :
  run W1 (bundle_the_plugin cfg argv m1) s1 = (Ok tt, s1', tr1) ->
  run W2 (bundle_the_plugin cfg argv m2) s2 = (Ok tt, s2', tr2) ->
  get "version" m1 = get "version" m2 ->
  loaded tr1 = loaded tr2 ->
  writes tr1 = writes tr2.
Proof.
  intros R1 R2 V L.
  destruct (bundle_complete cfg argv W1 _ _ _ _ R1) as (p1 & t1 & ->).
  destruct (bundle_complete cfg argv W2 _ _ _ _ R2) as (p2 & t2 & ->).
  assert (P : p1 = p2).
  { destruct t1, t2; simpl in L; injection L as L; exact L. }
  subst p2. unfold artifact, outName. rewrite V.
  destruct t1, t2; reflexivity.
Qed.

Lemma bundle_is_repeatable_witness :
  let W := Disk.World Sample.the_host in
  let task := bundle_the_plugin shipped Sample.develop Sample.after_bump in
  let first := run W task (snd (fst Sample.bumping)) in
  let second := run W task (snd (fst first)) in
  fst (fst first) = Ok tt /\ fst (fst second) = Ok tt
  /\ mkdirs (snd first) = ["./bundle/"] /\ mkdirs (snd second) = []
  /\ writes (snd first) = writes (snd second).
Proof.
  intros W task first second.
  assert (R1 : run W task (snd (fst Sample.bumping)) = (Ok tt, snd (fst first), snd first))
    by (vm_compute; reflexivity).
  assert (R2 : run W task (snd (fst first)) = (Ok tt, snd (fst second), snd second))
    by (vm_compute; reflexivity).
  split; [vm_compute; reflexivity|]. split; [vm_compute; reflexivity|].
  split; [vm_compute; reflexivity|]. split; [vm_compute; reflexivity|].
  apply (bundle_is_repeatable shipped Sample.develop W W _ _ _ _ _ _ _ _ R1 R2 eq_refl).
  vm_compute. reflexivity.
Defined.
End BundleRunFacts.

(** ** Runs of gulp *)
Module PipelineFacts.
Import Json Gulpfile JsonFacts RunFacts VersionFacts BumpFacts StartupFacts BundleFacts PathFacts.
Import TaskFacts LoadFacts BundleRunFacts.

Lemma bumped_title m full now : get "title" (bumped m full now) = get "title" m.
Proof. unfold bumped. rewrite !get_set_ne by discriminate. reflexivity. Qed.

(** X14.  'bump version' followed by 'bundle the plugin' in one run of
    gulp.  When the run completes, these are its calls, in order: the
    read of plugin.info, the parse, the clock, the write of plugin.info
    with the manifest held at the end, the start of gulp-bump on
    package.json with the version without its build, the boot of the
    wiki, the load of the plugin folder, the look-up of the bundle folder
    and its creation when missing, the write of the bundle named after
    the bumped version with the one value the wiki returned, the beep.
    The manifest held at the end has the title it was loaded with.  Of
    the files involved the script itself reads plugin.info and writes
    plugin.info and the bundle; package.json is left to gulp-bump and the
    plugin folder to the wiki. *)
Theorem bump_then_bundle
    (cfg : config) (argv : invocation) {S : Type} (W : world S)
    (m' : manifest) (s s' : S) (tr : list event) :
  run W (gulp cfg argv ["bump version"; "bundle the plugin"]) s = (Ok m', s', tr) ->
  exists (m : manifest) (text now version build : string) (outcome : result unit)
         (plugin : json) (there : bool),
    get "title" m' = Some (JStr (pluginTiddler cfg))
    /\ derive_version cfg argv (get "version" m) = Ok (version, build)
    /\ m' = bumped m (version +:+ build) now
    /\ get "version" m' = Some (JStr (version +:+ build))
    /\ tr = ([ Event (ReadFileSync (pluginInfoPath cfg argv) "utf8") (Ok text);
               Event (JSONparse text) (Ok (JObj m));
               Event UTCString (Ok now);
               Event (WriteFileSync (pluginInfoPath cfg argv) (stringify (JObj m'))) (Ok tt);
               Event (GulpBump "./package.json" "version" version "./") outcome;
               Event (TiddlyWikiBoot ["--verbose"]) (Ok tt);
               Event (LoadPluginFolder (dist_folder cfg argv)) (Ok plugin);
               Event (Exists "./bundle/") (Ok there) ]
             ++ (if there then [] else [Event (MkdirSync "./bundle/") (Ok tt)])
             ++ [ Event (WriteFileSync
                           (Path.resolve (cwd argv)
                              ["./bundle/";
                               pluginName cfg +:+ "_" +:+ (version +:+ build) +:+ ".json"])
                           (stringify (JArr [plugin]))) (Ok tt);
                  Event Beep (Ok tt) ])%list.
Proof.
  unfold gulp. unfold_monad. rewrite run_bind.
  destruct (run W (preprocessing cfg argv) s) as [[[m|e|] s0] tr0] eqn:R0; try discriminate.
  destruct (preprocessing_ok cfg argv W _ _ _ _ R0) as (Ht0 & text & ->).
  change (sequence cfg argv ["bump version"; "bundle the plugin"] m)
    with (bind (bump_version cfg argv m)
               (fun m1 => bind (keep (bundle_the_plugin cfg argv m1) m1)
                               (fun m2 => Ret m2))).
  rewrite run_bind.
  destruct (run W (bump_version cfg argv m) s0) as [[[m1|e|] s1] tr1] eqn:R1; try discriminate.
  destruct (bump_version_ok cfg argv W _ _ _ _ _ R1)
    as (version & build & now & sa & sb & [] & outcome & D & _ & Hm1 & _ & _ & ->).
  rewrite run_bind. unfold keep. unfold_monad. rewrite run_bind.
  destruct (run W (bundle_the_plugin cfg argv m1) s1) as [[[[]|e|] s2] tr2] eqn:R2;
    try discriminate.
  destruct (bundle_complete cfg argv W _ _ _ _ R2) as (plugin & there & ->).
  simpl. intros [= <- <- <-].
  assert (V : get "version" m1 = Some (JStr (version +:+ build)))
    by (rewrite Hm1; apply bumped_version).
  exists m, text, now, version, build, outcome, plugin, there.
  split; [rewrite Hm1, bumped_title; exact Ht0|].
  split; [exact D|]. split; [exact Hm1|]. split; [exact V|].
  unfold artifact, outName. rewrite V.
  destruct there; reflexivity.
Qed.

Lemma bump_then_bundle_witness :
  let W := Disk.World Sample.the_host in
  let s := Sample.disk Sample.pluginInfo None in
  let outcome := run W (gulp shipped Sample.develop ["bump version"; "bundle the plugin"]) s in
  fst (fst outcome) = Ok Sample.after_bump
  /\ writes (snd outcome)
     = [ (pluginInfoPath shipped Sample.develop, stringify (JObj Sample.after_bump));
         ("/home/dev/tw5-pouchdb/bundle/pouchdb_1.2.5-develop+4.json",
          stringify (JArr [Sample.plugin])) ]
  /\ bumps (snd outcome) = [("./package.json", "version", "1.2.5-develop")]
  /\ exists version build, get "version" Sample.after_bump = Some (JStr (version +:+ build)).
Proof.
  intros W s outcome.
  assert (R : run W (gulp shipped Sample.develop ["bump version"; "bundle the plugin"]) s
              = (Ok Sample.after_bump, snd (fst outcome), snd outcome))
    by (vm_compute; reflexivity).
  split; [vm_compute; reflexivity|].
  split; [vm_compute; reflexivity|].
  split; [vm_compute; reflexivity|].
  destruct (bump_then_bundle shipped Sample.develop W _ _ _ _ R)
    as (m & text & now & version & build & o & plugin & there & _ & _ & _ & Hv & _).
  exists version, build. exact Hv.
Defined.

(** X15.  A plain [gulp] runs the default task, which runs 'bump version'
    and no more.  Whatever the world answers, every call of such a run is
    a read, a parse, the clock, a write or the start of gulp-bump: it
    never cleans, never boots the wiki, never creates a folder.  The
    script itself reads plugin.info and no other file and writes at most
    once, to plugin.info; gulp-bump is started at most once, on
    package.json, and only after plugin.info was written. *)
Theorem default_only_bumps
    (cfg : config) (argv : invocation) {S : Type} (W : world S)
    (s s' : S) (r : result manifest) (tr : list event) :
  run W (gulp cfg argv ["default"]) s = (r, s', tr) ->
  forallb of_bump tr = true
  /\ reads tr = [pluginInfoPath cfg argv]
  /\ (writes tr = [] \/ exists text, writes tr = [(pluginInfoPath cfg argv, text)])
  /\ (bumps tr = []
      \/ exists version text,
           bumps tr = [("./package.json", "version", version)]
           /\ In (Event (WriteFileSync (pluginInfoPath cfg argv) text) (Ok tt)) tr).
Proof.
  unfold gulp. unfold_monad. rewrite run_bind.
  destruct (run W (preprocessing cfg argv) s) as [[r0 s0] tr0] eqn:R0.
  destruct (preprocessing_run cfg argv W _ _ _ _ R0) as (Hw0 & _ & Hb0 & _ & Hr0 & _).
  pose proof (preprocessing_calls cfg argv W _ _ _ _ R0) as Hc0.
  destruct r0 as [m|e|].
  2,3: intros [= <- <- <-]; repeat split; try assumption; left; assumption.
  change (sequence cfg argv ["default"] m)
    with (bind (bump_version cfg argv m) (fun m1 => Ret m1)).
  rewrite run_bind.
  destruct (run W (bump_version cfg argv m) s0) as [[r1 s1] tr1] eqn:R1.
  destruct (bump_effects cfg argv W _ _ _ _ _ R1) as (Hr1 & _ & _ & Hw1 & _).
  destruct (bump_calls cfg argv W _ _ _ _ _ R1) as (Hc1 & Hb1).
  intros R.
  assert (E : tr = (tr0 ++ tr1)%list).
  { destruct r1; simpl in R; injection R as <- <- <-;
      try rewrite app_nil_r; reflexivity. }
  clear R. subst tr.
  rewrite forallb_app, Hc0, Hc1.
  unfold reads, writes, bumps in *. rewrite !omap_app.
  rewrite Hw0, Hr0, Hr1, Hb0.
  split; [reflexivity|]. split; [reflexivity|]. split; [exact Hw1|].
  destruct Hb1 as [Hb1|(version & text & Hb1 & Hin)]; [left; exact Hb1|].
  right. exists version, text. split; [exact Hb1|]. apply in_or_app. right. exact Hin.
Qed.

Lemma default_only_bumps_witness :
  let W := Disk.World Sample.the_host in
  let s := Sample.disk Sample.pluginInfo (Some 20%nat) in
  let outcome := run W (gulp shipped Sample.develop ["default"]) s in
  fst (fst outcome) = Throw (SystemError "ENOSPC")
  /\ forallb of_bump (snd outcome) = true
  /\ reads (snd outcome) = [pluginInfoPath shipped Sample.develop]
  /\ bumps (snd outcome) = [].
Proof.
  intros W s outcome.
  assert (R : run W (gulp shipped Sample.develop ["default"]) s
              = (Throw (SystemError "ENOSPC"), snd (fst outcome), snd outcome))
    by (vm_compute; reflexivity).
  destruct (default_only_bumps shipped Sample.develop W _ _ _ _ R) as (Hc & Hr & _ & _).
  split; [vm_compute; reflexivity|].
  split; [exact Hc|]. split; [exact Hr|]. vm_compute. reflexivity.
Defined.
End PipelineFacts.
